(** * Marketplace application: listings backend and payments admin view

    A shallow embedding of

    - [Backend/index.js]: the Express listings service (multer upload
      filter, in-memory [listings] array, [GET /listings] and
      [POST /listings] handlers);
    - the React [Payments] component: fetch and transformation of raw
      orders, search, sort, status tabs and the cell formatters.

    JavaScript values are modelled as follows.  Strings are [string]
    (sequences of 8-bit code units; case mapping and white space are the
    ASCII ones).  Numbers that the program uses as integers (identifiers,
    sizes, parsed form fields, amounts, epoch milliseconds) are [Z].  A
    value that may be [null] or [undefined] is an [option]; the truthiness
    of such a value is written out ([None], the empty string and zero are
    falsy).

    The runtime functions of this model are those of the language on
    ASCII text and on safe integers (of magnitude below 2^53): outside
    ASCII the language folds the case of more letters, and not always
    letter by letter, and numbers are doubles, which round above 2^53 and
    print in exponent form from 10^21.  A property that depends on how
    case is folded or on how a number is read or printed is therefore
    stated for ASCII text ([is_ascii]) and safe integers
    ([safe_integer]); a property that holds whatever the case mapping is
    carries no such condition. *)

From Stdlib Require Import ZArith List String Ascii Bool Lia.
From Stdlib Require Import Permutation Sorted DecimalString.
From Stdlib Require QArith DecimalPos.
Import ListNotations.

Local Open Scope string_scope.
Local Open Scope Z_scope.

(* ===================================================================== *)
(** ** The JavaScript runtime functions the program calls *)
(* ===================================================================== *)

Module JS.

(** Code unit of a character. *)
Definition code (c : ascii) : Z := Z.of_N (N_of_ascii c).

(** [String.prototype.toLowerCase] as it acts on ASCII text: the
    letters A to Z are replaced one by one, every other code unit is kept.
    (On other text the language also folds the other cased letters, and
    some of them by rules that look at the neighbouring letters.) *)
Definition lower_char (c : ascii) : ascii :=
  if (65 <=? code c) && (code c <=? 90)
  then ascii_of_N (Z.to_N (code c + 32))
  else c.

Fixpoint toLowerCase (s : string) : string :=
  match s with
  | EmptyString => EmptyString
  | String c r => String (lower_char c) (toLowerCase r)
  end.

(** [s.startsWith(t)]. *)
Fixpoint startsWith (s t : string) : bool :=
  match t, s with
  | EmptyString, _ => true
  | String _ _, EmptyString => false
  | String b t', String a s' => Ascii.eqb a b && startsWith s' t'
  end.

(** [s.includes(t)]: [t] occurs in [s] at some position. *)
Fixpoint includes (s t : string) : bool :=
  startsWith s t ||
  match s with
  | EmptyString => false
  | String _ s' => includes s' t
  end.

(** Truthiness of a string that may be [null] or [undefined]. *)
Definition truthy (v : option string) : bool :=
  match v with
  | Some (String _ _) => true
  | _ => false
  end.

(** [v || d] for a nullable string [v] and a string [d]. *)
Definition or_else (v : option string) (d : string) : string :=
  match v with
  | Some (String c r) => String c r
  | _ => d
  end.

(** Decimal rendering of an integer, as a template literal prints a
    number that is a safe integer (the language prints a number of
    magnitude 10^21 or more in exponent form). *)
Definition Number_toString (n : Z) : string :=
  NilZero.string_of_int (Z.to_int n).

(** *** [parseInt(string)] with no radix argument (ECMAScript 19.2.5) *)

(** White space stripped by [TrimString]: TAB, LF, VT, FF, CR, SP. *)
Definition isWhiteSpace (c : ascii) : bool :=
  ((9 <=? code c) && (code c <=? 13)) || (code c =? 32).

Fixpoint trimStart (s : string) : string :=
  match s with
  | String c r => if isWhiteSpace c then trimStart r else s
  | EmptyString => EmptyString
  end.

(** Value of a digit or letter as a digit; [None] for any other unit. *)
Definition digit_value (c : ascii) : option Z :=
  let n := code c in
  if (48 <=? n) && (n <=? 57) then Some (n - 48)
  else if (97 <=? n) && (n <=? 122) then Some (n - 97 + 10)
  else if (65 <=? n) && (n <=? 90) then Some (n - 65 + 10)
  else None.

(** Steps 11 to 15: the longest prefix of radix-[R] digits, read as an
    integer; [acc] is the value of the digits seen, [None] before the
    first one. *)
Fixpoint parse_digits (R : Z) (acc : option Z) (s : string) : option Z :=
  match s with
  | EmptyString => acc
  | String c r =>
      match digit_value c with
      | Some d =>
          if d <? R
          then parse_digits R (Some (match acc with
                                     | Some a => a * R + d
                                     | None => d
                                     end)) r
          else acc
      | None => acc
      end
  end.

(** [parseInt s] on ASCII text: [None] is [NaN].  The two zeros are not
    told apart (both are falsy, and both print as 0).  The value is the
    exact integer; the language returns the nearest double, which is that
    integer for safe integers.  (The language also strips the white space
    characters that lie outside ASCII.) *)
Definition parseInt (input : string) : option Z :=
  let S0 := trimStart input in
  let sign := if startsWith S0 "-" then -1 else 1 in
  let S1 := match S0 with
            | String c r =>
                if Ascii.eqb c "+" || Ascii.eqb c "-" then r else S0
            | EmptyString => S0
            end in
  let '(R, S2) := match S1 with
                  | String a (String b r) =>
                      if Ascii.eqb a "0" && (Ascii.eqb b "x" || Ascii.eqb b "X")
                      then (16, r) else (10, S1)
                  | _ => (10, S1)
                  end in
  match parse_digits R None S2 with
  | Some mathInt => Some (sign * mathInt)
  | None => None
  end.

(** [ToString] of a value that is a string or [undefined]. *)
Definition ToString (v : option string) : string :=
  match v with
  | Some s => s
  | None => "undefined"
  end.

(** [n || undefined] for a number [n] ([None] is [NaN] on the left and
    [undefined] on the right): [NaN] and zero are falsy. *)
Definition or_undefined (n : option Z) : option Z :=
  match n with
  | Some 0 => None
  | Some v => Some v
  | None => None
  end.

(** *** [path.extname] (Node, POSIX flavour) *)

Record ExtScan := mkExtScan {
  startDot : Z;
  startPart : Z;
  end_ : Z;
  matchedSlash : bool;
  preDotState : Z;
  stopped : bool
}.

Definition ext_init : ExtScan := mkExtScan (-1) 0 (-1) true 0 false.

(** One iteration of the backwards loop, at index [i] on unit [c]. *)
Definition ext_step (st : ExtScan) (ic : Z * ascii) : ExtScan :=
  let '(i, c) := ic in
  if stopped st then st
  else if Ascii.eqb c "/" then
    if negb (matchedSlash st)
    then mkExtScan (startDot st) (i + 1) (end_ st) (matchedSlash st)
           (preDotState st) true
    else st
  else
    let st1 :=
      if end_ st =? -1
      then mkExtScan (startDot st) (startPart st) (i + 1) false
             (preDotState st) false
      else st in
    if Ascii.eqb c "." then
      if startDot st1 =? -1
      then mkExtScan i (startPart st1) (end_ st1) (matchedSlash st1)
             (preDotState st1) false
      else if negb (preDotState st1 =? 1)
      then mkExtScan (startDot st1) (startPart st1) (end_ st1)
             (matchedSlash st1) 1 false
      else st1
    else if negb (startDot st1 =? -1)
    then mkExtScan (startDot st1) (startPart st1) (end_ st1)
           (matchedSlash st1) (-1) false
    else st1.

Fixpoint indexed (i : Z) (s : string) : list (Z * ascii) :=
  match s with
  | EmptyString => []
  | String c r => (i, c) :: indexed (i + 1) r
  end.

(** [s.slice(a, b)] for [0 <= a <= b <= s.length]. *)
Definition slice (s : string) (a b : Z) : string :=
  substring (Z.to_nat a) (Z.to_nat (b - a)) s.

Definition extname (path : string) : string :=
  let st := fold_left ext_step (rev (indexed 0 path)) ext_init in
  if (startDot st =? -1) || (end_ st =? -1) || (preDotState st =? 0)
     || ((preDotState st =? 1)
         && (startDot st =? end_ st - 1)
         && (startDot st =? startPart st + 1))
  then ""
  else slice path (startDot st) (end_ st).

(** [String.prototype.toUpperCase] of one code unit, as it acts on
    ASCII text: a letter a to z is replaced by its capital.  (Outside
    ASCII the language maps the other cased letters too, some of them to
    more than one letter.) *)
Definition upper_char (c : ascii) : ascii :=
  if (97 <=? code c) && (code c <=? 122)
  then ascii_of_N (Z.to_N (code c - 32))
  else c.

End JS.

(* ===================================================================== *)
(** ** Backend: the listings service ([Backend/index.js]) *)
(* ===================================================================== *)

Module Listings.

(** A file part of a multipart request, as the upload middleware sees
    it: the form field it came in, the client's file name and declared
    media type, its length in bytes, and the reading of [Date.now()] at
    the moment the disk storage names it. *)
Record Upload := mkUpload {
  fieldname : string;
  originalname : string;
  mimetype : string;
  size : Z;
  stored_at : Z
}.

(** What the middleware passes to [next(err)]. *)
Inductive UploadError :=
| Error (message : string)
| LIMIT_FILE_SIZE
| LIMIT_UNEXPECTED_FILE.

(** [limits: { fileSize: 5 * 1024 * 1024 }] *)
Definition fileSize : Z := 5 * 1024 * 1024.

(** [/jpeg|jpg|png/.test(s)]: the pattern has no anchors, so it succeeds
    when one of the three words occurs anywhere in [s]. *)
Definition filetypes_test (s : string) : bool :=
  JS.includes s "jpeg" || JS.includes s "jpg" || JS.includes s "png".

(** [fileFilter]: [inr true] is [cb(null, true)], [inl e] is [cb(e)]. *)
Definition fileFilter (file : Upload) : UploadError + bool :=
  let extname := filetypes_test (JS.toLowerCase (JS.extname (originalname file))) in
  let mimetype := filetypes_test (mimetype file) in
  if extname && mimetype then inr true
  else inl (Error "Only JPEG/PNG images are allowed").

(** [storage.filename]: the name under [./uploads/]. *)
Definition filename (file : Upload) : string :=
  JS.Number_toString (stored_at file) ++ "-" ++ originalname file.

(** [upload.array('images', 5)]: the parts are taken in order; a part
    in another field or a sixth part is refused, then [fileFilter] is
    asked, then the part is stored unless it is longer than [fileSize].
    The first error ends the request; otherwise [req.files] is the list
    of stored files.  [left] counts the files still allowed.

    This is a model of the multer middleware, a package the repository
    uses but does not contain, written from its documentation.  Whether a
    file of exactly [fileSize] bytes is stored depends on the version of
    the package (the model stores it); the properties stated of uploads
    hold either way. *)
Fixpoint upload_array (left : nat) (parts : list Upload) {struct parts}
  : UploadError + list Upload :=
  match parts with
  | [] => inr []
  | file :: rest =>
      if negb (fieldname file =? "images")%string then inl LIMIT_UNEXPECTED_FILE
      else match left with
           | O => inl LIMIT_UNEXPECTED_FILE
           | S left' =>
               match fileFilter file with
               | inl e => inl e
               | inr _ =>
                   if size file >? fileSize then inl LIMIT_FILE_SIZE
                   else match upload_array left' rest with
                        | inl e => inl e
                        | inr files => inr (file :: files)
                        end
               end
           end
  end.

(** The text fields of the form, [req.body]; [None] is a field that the
    request does not carry. *)
Module Form.
Record Body := mkBody {
  title : option string;
  type : option string;
  breed : option string;
  age : option string;
  weight : option string;
  price : option string;
  location : option string;
  description : option string;
  forEid : option string
}.
End Form.

Record Listing := mkListing {
  id : Z;
  title : option string;
  type : option string;
  breed : option string;
  age : option Z;
  weight : option Z;
  price : option Z;
  location : option string;
  description : option string;
  images : list string;
  status : string;
  listed : string;
  rating : QArith_base.Q;
  forEid : bool
}.

(** [forEid === 'true'] *)
Definition is_true_literal (v : option string) : bool :=
  match v with
  | Some s => (s =? "true")%string
  | None => false
  end.

(** [parseInt(field) || undefined] *)
Definition numeric_field (v : option string) : option Z :=
  JS.or_undefined (JS.parseInt (JS.ToString v)).

(** The body of the [POST /listings] handler, run once the middleware
    has set [req.body] and [req.files]; [now] is
    [new Date().toISOString()].  Returns the new value of [listings] and
    the record sent with status 201. *)
Definition post_handler (listings : list Listing) (body : Form.Body)
    (files : list Upload) (now : string) : list Listing * Listing :=
  let imageUrls := map (fun file => "/uploads/" ++ filename file) files in
  let newListing :=
    {| id := Z.of_nat (List.length listings) + 1;
       title := Form.title body;
       type := Form.type body;
       breed := Form.breed body;
       age := numeric_field (Form.age body);
       weight := numeric_field (Form.weight body);
       price := numeric_field (Form.price body);
       location := Form.location body;
       description := Form.description body;
       images := imageUrls;
       status := "active";
       listed := now;
       rating := QArith_base.Qmake 9 2;
       forEid := is_true_literal (Form.forEid body) |} in
  ((listings ++ [newListing])%list, newListing).

(** A [POST /listings] request.  When the request is not
    [multipart/form-data] the middleware passes it on untouched and
    [req.files] is [undefined]. *)
Record PostRequest := mkPost {
  multipart : bool;
  body : Form.Body;
  parts : list Upload;
  now : string
}.

Inductive Request :=
| GET_listings
| POST_listings (req : PostRequest).

Inductive Failure :=
| UploadFailed (e : UploadError)
| TypeError (message : string).

Inductive Response :=
| OK (json : list Listing)
| Created (json : Listing)
| Failed (e : Failure).

(** One request against the process state [listings]. *)
Definition handle (listings : list Listing) (r : Request)
  : list Listing * Response :=
  match r with
  | GET_listings => (listings, OK listings)
  | POST_listings req =>
      if negb (multipart req)
      then (listings, Failed (TypeError "Cannot read properties of undefined (reading 'map')"))
      else match upload_array 5 (parts req) with
           | inl e => (listings, Failed (UploadFailed e))
           | inr files =>
               let '(listings', newListing) :=
                 post_handler listings (body req) files (now req) in
               (listings', Created newListing)
           end
  end.

(** A process lifetime: [listings] starts as [[]] and the requests are
    served one after the other. *)
Fixpoint serve (listings : list Listing) (rs : list Request)
  : list Listing * list Response :=
  match rs with
  | [] => (listings, [])
  | r :: rest =>
      let '(listings1, resp) := handle listings r in
      let '(listings2, resps) := serve listings1 rest in
      (listings2, resp :: resps)
  end.

Definition lifetime (rs : list Request) : list Listing * list Response :=
  serve [] rs.

(** The Listings created by the successful POSTs of a run, in order. *)
Fixpoint created (resps : list Response) : list Listing :=
  match resps with
  | [] => []
  | Created l :: rest => l :: created rest
  | _ :: rest => created rest
  end.

Definition is_created (r : Response) : bool :=
  match r with
  | Created _ => true
  | _ => false
  end.

(** An attachment the middleware refuses on its own. *)
Definition refused (file : Upload) : Prop :=
  fileFilter file <> inr true \/ size file > fileSize.

(** The words of the specification for the upload constraint: an
    attachment is a JPEG or PNG image when its file extension is one of
    [.jpg], [.jpeg], [.png] (in any case) and its declared media type is
    one of the JPEG and PNG image types. *)
Definition spec_is_jpeg_or_png (file : Upload) : bool :=
  let ext := JS.toLowerCase (JS.extname (originalname file)) in
  ((ext =? ".jpg") || (ext =? ".jpeg") || (ext =? ".png"))%string
  && ((mimetype file =? "image/jpeg") || (mimetype file =? "image/jpg")
      || (mimetype file =? "image/pjpeg") || (mimetype file =? "image/png")
      || (mimetype file =? "image/x-png"))%string.

End Listings.

(* ===================================================================== *)
(** ** Frontend: the [Payments] admin view *)
(* ===================================================================== *)

Module Payments.

(** [paymentDetails]: each member may be missing. *)
Record PaymentDetails := mkDetails {
  bankName : option string;
  accountNumber : option string;
  stripePaymentIntentId : option string
}.

Module Item.
Record t := mk { id : string; title : string; price : Z }.
End Item.

(** A raw order of the backend's answer ([order: any]); the members
    that the view guards against being absent are options. *)
Module Raw.
Record Order := mkOrder {
  id : string;
  orderId : string;
  buyer : option string;
  seller : option string;
  buyerId : option Z;
  total : Z;
  subtotal : Z;
  tax : Z;
  paymentMethod : string;
  paymentDetails : option PaymentDetails;
  status : string;
  date : option string;
  items : option (list Item.t)
}.
End Raw.

(** [interface Payment] *)
Record Payment := mkPayment {
  id : string;
  orderId : string;
  buyer : option string;
  seller : option string;
  buyerId : option Z;
  amount : Z;
  total : Z;
  subtotal : Z;
  tax : Z;
  method : string;
  paymentMethod : string;
  paymentDetails : option PaymentDetails;
  status : string;
  date : option string;
  items : list Item.t
}.

(** [`${buyerId || 'Unknown'}`]: a missing or zero identifier is falsy. *)
Definition buyerId_or_Unknown (buyerId : option Z) : string :=
  match buyerId with
  | Some 0 | None => "Unknown"
  | Some n => JS.Number_toString n
  end.

(** The arrow function given to [response.data.map]. *)
Definition transform (order : Raw.Order) : Payment :=
  {| id := Raw.id order;
     orderId := Raw.orderId order;
     buyer := Some (JS.or_else (Raw.buyer order)
                      ("Buyer ID: " ++ buyerId_or_Unknown (Raw.buyerId order)));
     seller := Some (JS.or_else (Raw.seller order) "Unknown Seller");
     buyerId := Raw.buyerId order;
     amount := Raw.total order;
     total := Raw.total order;
     subtotal := Raw.subtotal order;
     tax := Raw.tax order;
     method := Raw.paymentMethod order;
     paymentMethod := Raw.paymentMethod order;
     paymentDetails := Raw.paymentDetails order;
     status := Raw.status order;
     date := Raw.date order;
     items := match Raw.items order with
              | Some l => l
              | None => []
              end |}.

(** *** Component state and the effects of [fetchPayments] *)

Inductive SortDirection := asc | desc.

(** The five [useState] cells. *)
Record State := mkState {
  payments : list Payment;
  searchTerm : string;
  sortColumn : option string;
  sortDirection : SortDirection;
  isLoading : bool
}.

(** The initial values given to [useState]. *)
Definition initial : State :=
  {| payments := []; searchTerm := ""; sortColumn := None;
     sortDirection := asc; isLoading := true |}.

(** What the effect can touch: the component state, the notifications
    shown by [toast.error], and the console. *)
Record World := mkWorld {
  view : State;
  toasts : list string;
  console : list string
}.

Inductive Exception :=
| AxiosError (message : string)
| TypeError (message : string).

(** A computation that may throw; state changes made before a throw
    stay made. *)
Definition Eff (A : Type) : Type := World -> (Exception + A) * World.

Definition ret {A} (a : A) : Eff A := fun w => (inr a, w).

Definition bind {A B} (m : Eff A) (k : A -> Eff B) : Eff B :=
  fun w =>
    match m w with
    | (inr a, w') => k a w'
    | (inl e, w') => (inl e, w')
    end.

Definition throw {A} (e : Exception) : Eff A := fun w => (inl e, w).

(** [try { body } catch (error) { handler } finally { cleanup }] *)
Definition try_catch_finally {A} (body : Eff A)
    (handler : Exception -> Eff A) (cleanup : Eff unit) : Eff A :=
  fun w =>
    let '(r, w1) :=
      match body w with
      | (inr a, w') => (inr a, w')
      | (inl e, w') => handler e w'
      end in
    match cleanup w1 with
    | (inr _, w2) => (r, w2)
    | (inl e, w2) => (inl e, w2)
    end.

Declare Scope eff_scope.
Delimit Scope eff_scope with eff.
Notation "x <- m ;; k" := (bind m (fun x => k))
  (at level 61, m at next level, right associativity) : eff_scope.
Notation "m ;; k" := (bind m (fun _ => k))
  (at level 61, right associativity) : eff_scope.

Definition update (f : State -> State) : Eff unit :=
  fun w => (inr tt, {| view := f (view w); toasts := toasts w;
                       console := console w |}).

Definition setIsLoading (b : bool) : Eff unit :=
  update (fun s => {| payments := payments s; searchTerm := searchTerm s;
                      sortColumn := sortColumn s;
                      sortDirection := sortDirection s; isLoading := b |}).

Definition setPayments (ps : list Payment) : Eff unit :=
  update (fun s => {| payments := ps; searchTerm := searchTerm s;
                      sortColumn := sortColumn s;
                      sortDirection := sortDirection s;
                      isLoading := isLoading s |}).

Definition toast_error (message : string) : Eff unit :=
  fun w => (inr tt, {| view := view w; toasts := (toasts w ++ [message])%list;
                       console := console w |}).

Definition console_log (message : string) : Eff unit :=
  fun w => (inr tt, {| view := view w; toasts := toasts w;
                       console := (console w ++ [message])%list |}).

Definition console_error := console_log.

(** [response.data]: an array of orders, or some other JSON value. *)
Inductive ResponseData :=
| array (orders : list Raw.Order)
| not_array.

(** How the awaited [axios.get] settles. *)
Inductive Settled :=
| rejected (error : Exception)
| resolved (data : ResponseData).

Definition axios_get (network : Settled) : Eff ResponseData :=
  match network with
  | rejected error => throw error
  | resolved data => ret data
  end.

(** [response.data.map(f)]: a [TypeError] when the data has no [map]. *)
Definition data_map (data : ResponseData) (f : Raw.Order -> Payment)
  : Eff (list Payment) :=
  match data with
  | array orders => ret (map f orders)
  | not_array => throw (TypeError "response.data.map is not a function")
  end.

Local Open Scope eff_scope.

Definition fetchPayments (network : Settled) : Eff unit :=
  try_catch_finally
    (setIsLoading true ;;
     data <- axios_get network ;;
     console_log "Payment data from backend:" ;;
     transformedPayments <- data_map data transform ;;
     setPayments transformedPayments)
    (fun error =>
       console_error "Error fetching payments:" ;;
       toast_error "Failed to load payment data. Please try again.")
    (setIsLoading false).

Local Close Scope eff_scope.

(** The component is mounted: the effect runs once on the initial
    state. *)
Definition mount (network : Settled) : (Exception + unit) * World :=
  fetchPayments network {| view := initial; toasts := []; console := [] |}.

(** *** Sorting, searching and the status tabs *)

Definition toggle (d : SortDirection) : SortDirection :=
  match d with
  | asc => desc
  | desc => asc
  end.

(** [sortColumn === column] *)
Definition is_column (sortColumn : option string) (column : string) : bool :=
  match sortColumn with
  | Some c => (c =? column)%string
  | None => false
  end.

Definition handleSort (s : State) (column : string) : State :=
  if is_column (sortColumn s) column
  then {| payments := payments s; searchTerm := searchTerm s;
          sortColumn := sortColumn s;
          sortDirection := toggle (sortDirection s);
          isLoading := isLoading s |}
  else {| payments := payments s; searchTerm := searchTerm s;
          sortColumn := Some column;
          sortDirection := asc;
          isLoading := isLoading s |}.

(** [field && field.toLowerCase().includes(term.toLowerCase())] *)
Definition field_includes (field : option string) (term : string) : bool :=
  match field with
  | Some (String c r) =>
      JS.includes (JS.toLowerCase (String c r)) (JS.toLowerCase term)
  | _ => false
  end.

(** The predicate given to [payments.filter]. *)
Definition search (searchTerm : string) (payment : Payment) : bool :=
  field_includes (buyer payment) searchTerm
  || field_includes (seller payment) searchTerm
  || JS.includes (JS.toLowerCase (orderId payment)) (JS.toLowerCase searchTerm)
  || JS.includes (JS.toLowerCase (paymentMethod payment))
       (JS.toLowerCase searchTerm).

Definition filteredPayments (s : State) : list Payment :=
  filter (search (searchTerm s)) (payments s).

(** The functions of the host's internationalisation library that the
    view calls: [new Date(s).getTime()] ([None] is [NaN], the time of an
    invalid date), [a.localeCompare(b)], and
    [new Date(s).toLocaleDateString('en-PK')]. *)
Class Host := {
  getTime : string -> option Z;
  localeCompare : string -> string -> Z;
  toLocaleDateString : string -> string
}.

(** Arithmetic of numbers that may be [NaN]. *)
Definition num_sub (a b : option Z) : option Z :=
  match a, b with
  | Some x, Some y => Some (x - y)
  | _, _ => None
  end.

Definition num_mul (d : Z) (a : option Z) : option Z :=
  match a with
  | Some x => Some (d * x)
  | None => None
  end.

(** [p.date ? new Date(p.date).getTime() : 0] *)
Definition timestamp `{Host} (p : Payment) : option Z :=
  match date p with
  | Some (String c r) => getTime (String c r)
  | _ => Some 0
  end.

(** [sortDirection === "asc" ? 1 : -1] *)
Definition direction (sortDirection : SortDirection) : Z :=
  match sortDirection with
  | asc => 1
  | desc => -1
  end.

(** The comparator given to [sort]. *)
Definition comparator `{Host} (sortColumn : option string)
    (sortDirection : SortDirection) (a b : Payment) : option Z :=
  if negb (JS.truthy sortColumn) then Some 0
  else
    let direction := direction sortDirection in
    let column := JS.ToString sortColumn in
    if (column =? "date")%string then
      num_mul direction (num_sub (timestamp a) (timestamp b))
    else if (column =? "amount")%string then
      Some (direction * (amount a - amount b))
    else if (column =? "buyer")%string then
      Some (direction * localeCompare (JS.or_else (buyer a) "")
                          (JS.or_else (buyer b) ""))
    else if (column =? "seller")%string then
      Some (direction * localeCompare (JS.or_else (seller a) "")
                          (JS.or_else (seller b) ""))
    else if (column =? "status")%string then
      Some (direction * localeCompare (status a) (status b))
    else Some 0.

(** [Array.prototype.sort]: [SortCompare] reads a [NaN] from the
    comparator as 0; the sort is stable, written here as the insertion
    of each element before the first one it does not follow. *)
Section ArraySort.
Context {A : Type} (comparefn : A -> A -> option Z).

Definition SortCompare (x y : A) : Z :=
  match comparefn x y with
  | Some v => v
  | None => 0
  end.

Fixpoint insert (x : A) (l : list A) : list A :=
  match l with
  | [] => [x]
  | y :: r => if SortCompare x y <=? 0 then x :: l else y :: insert x r
  end.

Definition sort (l : list A) : list A := fold_right insert [] l.
End ArraySort.

Definition sortedPayments `{Host} (s : State) : list Payment :=
  sort (comparator (sortColumn s) (sortDirection s)) (filteredPayments s).

Definition filterPaymentsByStatus `{Host} (s : State) (status_ : string)
  : list Payment :=
  if (status_ =? "all-payments")%string then sortedPayments s
  else filter (fun payment =>
                 (JS.toLowerCase (status payment) =? JS.toLowerCase status_)%string)
         (sortedPayments s).

(** The values of the four tabs, and the number each trigger shows. *)
Definition tabs : list string :=
  ["all-payments"; "completed"; "pending"; "cancelled"].

Definition count_status (s : State) (name : string) : nat :=
  List.length (filter (fun p => (JS.toLowerCase (status p) =? name)%string)
                 (payments s)).

Definition TabsList (s : State) : list (string * nat) :=
  [("all-payments", List.length (payments s));
   ("completed", count_status s "completed");
   ("pending", count_status s "pending");
   ("cancelled", count_status s "cancelled")].

(** *** Cell formatters *)

Definition formatDate `{Host} (dateString : option string) : string :=
  match dateString with
  | Some (String c r) => toLocaleDateString (String c r)
  | _ => "N/A"
  end.

Definition formatPaymentDetails (details : option PaymentDetails) : string :=
  match details with
  | None => "N/A"
  | Some d =>
      if JS.truthy (bankName d) && JS.truthy (accountNumber d)
      then JS.ToString (bankName d) ++ " - " ++ JS.ToString (accountNumber d)
      else if JS.truthy (stripePaymentIntentId d) then "Stripe Payment"
      else "N/A"
  end.

(** *** The other formatters and the rendered screen *)

(** [amount.toLocaleString('en-PK')], a function of the host. *)
Class NumberFormat := {
  toLocaleString : Z -> string
}.

Definition formatCurrency `{NumberFormat} (amount_ : Z) : string :=
  "Rs. " ++ toLocaleString amount_.

(** [method.charAt(0).toUpperCase() + method.slice(1)] *)
Definition formatPaymentMethod (method_ : string) : string :=
  match method_ with
  | EmptyString => ""
  | String c r => String (JS.upper_char c) r
  end.

Definition getStatusColor (status_ : string) : string :=
  let s := JS.toLowerCase status_ in
  if (s =? "completed")%string then "bg-green-500"
  else if (s =? "pending")%string then "bg-yellow-500"
  else if (s =? "cancelled")%string then "bg-red-500"
  else "bg-gray-500".

(** One [TableRow]: its key and the text of its cells. *)
Record Row := mkRow {
  key : string;
  orderId_cell : string;
  buyer_cell : string;
  seller_cell : string;
  amount_cell : string;
  method_cell : string;
  details_cell : string;
  status_color : string;
  status_cell : string;
  date_cell : string
}.

Definition row `{Host} `{NumberFormat} (payment : Payment) : Row :=
  {| key := id payment;
     orderId_cell := orderId payment;
     buyer_cell := JS.or_else (buyer payment) "Unknown";
     seller_cell := JS.or_else (seller payment) "Unknown";
     amount_cell := formatCurrency (amount payment);
     method_cell := formatPaymentMethod (paymentMethod payment);
     details_cell := formatPaymentDetails (paymentDetails payment);
     status_color := getStatusColor (status payment);
     status_cell := status payment;
     date_cell := formatDate (date payment) |}.

(** One [TabsContent]: the tab it belongs to, its rows, and the notice
    shown under the table when there is no row. *)
Record TabsContent := mkContent {
  value : string;
  rows : list Row;
  notice : option string
}.

(** What the component returns: the spinner while loading; otherwise
    the page with the search box and either the empty state or the tab
    triggers with their counts and the four tab contents. *)
Inductive Screen :=
| Spinner (text : string)
| EmptyState (searchBox heading text : string)
| TabsView (searchBox : string) (triggers : list (string * nat))
    (contents : list TabsContent).

Definition render `{Host} `{NumberFormat} (s : State) : Screen :=
  if isLoading s then Spinner "Loading payments..."
  else if (List.length (payments s) =? 0)%nat
  then EmptyState (searchTerm s) "No Payments Found"
         "No payment data available yet."
  else TabsView (searchTerm s) (TabsList s)
         (map (fun tab =>
                 {| value := tab;
                    rows := map row (filterPaymentsByStatus s tab);
                    notice :=
                      if (List.length (filterPaymentsByStatus s tab) =? 0)%nat
                      then Some "No payments match your search criteria."
                      else None |})
            tabs).

End Payments.
(* ===================================================================== *)
(** ** Reference notions and concrete inputs *)
(* ===================================================================== *)

(** [t] occurs in [s], without regard to the case of letters. *)
Definition ci_substring (t s : string) : Prop :=
  exists pre post, JS.toLowerCase s = pre ++ JS.toLowerCase t ++ post.

(** Two strings are equal up to the case of letters. *)
Definition ci_equal (a b : string) : Prop :=
  JS.toLowerCase a = JS.toLowerCase b.

Module Samples.
Import Listings.

Definition empty_body : Form.Body :=
  Form.mkBody None None None None None None None None None.

(** A calf listed at birth and given away: age and price are zero. *)
Definition calf_body : Form.Body :=
  Form.mkBody (Some "Calf") (Some "cow") (Some "Sahiwal") (Some "0")
    (Some "35") (Some "0") (Some "Lahore") (Some "Newborn") (Some "true").

Definition calf_post : PostRequest :=
  mkPost true calf_body [] "2025-06-01T09:00:00.000Z".

Definition photo : Upload :=
  mkUpload "images" "goat.JPG" "image/jpeg" 204800 1748768400000.

(** A Motion JPEG video clip, with its registered extension and media
    type. *)
Definition clip : Upload :=
  mkUpload "images" "clip.jpgv" "video/jpeg" 204800 1748768400001.

Definition animation : Upload :=
  mkUpload "images" "goat.gif" "image/gif" 204800 1748768400002.

Definition huge_photo : Upload :=
  mkUpload "images" "bull.png" "image/png" (5 * 1024 * 1024 + 1) 1748768400003.

Definition post_with (files : list Upload) : PostRequest :=
  mkPost true calf_body files "2025-06-01T09:00:00.000Z".

End Samples.

(** A nullable string is present when it is neither [null] nor
    [undefined] nor empty, that is, when it is truthy. *)
Definition present (v : option string) : Prop :=
  exists s, v = Some s /\ s <> "".


(** The four fields the search looks at, and a term found in one. *)
Definition term_matches (term : string) (p : Payments.Payment) : Prop :=
  (exists s, Payments.buyer p = Some s /\ ci_substring term s)
  \/ (exists s, Payments.seller p = Some s /\ ci_substring term s)
  \/ ci_substring term (Payments.orderId p)
  \/ ci_substring term (Payments.paymentMethod p).

(** The fetch fails: the request is rejected, or the answer is not an
    array and cannot be mapped. *)
Definition fetch_failed (network : Payments.Settled) : Prop :=
  match network with
  | Payments.rejected _ => True
  | Payments.resolved Payments.not_array => True
  | Payments.resolved (Payments.array _) => False
  end.

(** The text of the notification [fetchPayments] shows on failure. *)
Definition failure_message : string :=
  "Failed to load payment data. Please try again.".



(** The words of the specification for the fallback strings and for the
    payment-details cell, to be compared with [transform] and
    [formatPaymentDetails]. *)
Module SpecWords.
Import Payments.

(** "buyer: the raw buyer when present, otherwise Buyer ID: {id} when a
    buyer identifier is present or Unknown when it is not" *)
Definition buyer_display (order : Raw.Order) : string :=
  if JS.truthy (Raw.buyer order) then JS.ToString (Raw.buyer order)
  else match Raw.buyerId order with
       | Some n => "Buyer ID: " ++ JS.Number_toString n
       | None => "Unknown"
       end.

(** "seller: the raw seller when present, otherwise Unknown Seller" *)
Definition seller_display (order : Raw.Order) : string :=
  if JS.truthy (Raw.seller order) then JS.ToString (Raw.seller order)
  else "Unknown Seller".

(** "{bank} - {account} when both are present, Stripe Payment when only
    a payment-intent identifier is present, N/A otherwise" *)
Definition details_cell (details : option PaymentDetails) : string :=
  match details with
  | None => "N/A"
  | Some d =>
      if JS.truthy (bankName d) && JS.truthy (accountNumber d)
      then JS.ToString (bankName d) ++ " - " ++ JS.ToString (accountNumber d)
      else if JS.truthy (stripePaymentIntentId d)
              && negb (JS.truthy (bankName d))
              && negb (JS.truthy (accountNumber d))
      then "Stripe Payment"
      else "N/A"
  end.

End SpecWords.

(** A host on which the view can be run: a date is written as its
    count of milliseconds in decimal, strings are compared by code
    units, and a date prints as its text after the word "on". *)
Module TestHost.

Definition getTime (s : string) : option Z := JS.parse_digits 10 None s.

Definition localeCompare (a b : string) : Z :=
  match String.compare a b with
  | Lt => -1
  | Eq => 0
  | Gt => 1
  end.

Definition toLocaleDateString (s : string) : string :=
  match getTime s with
  | Some _ => "on " ++ s
  | None => "Invalid Date"
  end.

#[export] Instance host : Payments.Host :=
  {| Payments.getTime := getTime;
     Payments.localeCompare := localeCompare;
     Payments.toLocaleDateString := toLocaleDateString |}.

End TestHost.

Module Orders.
Import Payments.

(** An order with no buyer, seller or buyer identifier, whose total is
    not the sum of subtotal and tax, and whose details name a bank and a
    payment intent but no account. *)
Definition anonymous : Raw.Order :=
  Raw.mkOrder "17" "ORD-A1" None None None 1500 1400 50 "stripe"
    (Some (mkDetails (Some "HBL") None (Some "pi_3")))
    "Completed" None None.

Definition known : Raw.Order :=
  Raw.mkOrder "18" "ORD-B2" (Some "Alice") (Some "Green Farm") (Some 7)
    900 900 0 "bank"
    (Some (mkDetails (Some "HBL") (Some "0012345") None))
    "pending" (Some "1748768400000") (Some [Item.mk "3" "Goat" 900]).

Definition no_name : Raw.Order :=
  Raw.mkOrder "19" "ORD-C3" None (Some "Green Farm") (Some 42)
    100 100 0 "stripe" None "cancelled" None None.

(** The two records of the sorting and tab examples. *)
Definition A : Payment :=
  mkPayment "1" "O-1" (Some "A") None None 100 100 100 0 "bank" "bank"
    None "pending" None [].

Definition B : Payment :=
  mkPayment "2" "O-2" (Some "B") None None 50 50 50 0 "stripe" "stripe"
    None "completed" None [].

Definition table (column : option string) (direction : SortDirection) : State :=
  mkState [A; B] "" column direction false.

End Orders.

(** An attachment the middleware lets through: it comes in the field
    [images], passes [fileFilter] and is not longer than [fileSize]. *)
Definition acceptable (file : Listings.Upload) : Prop :=
  Listings.fieldname file = "images"
  /\ Listings.fileFilter file = inr true
  /\ Listings.size file <= Listings.fileSize.

(** The URL under which a stored attachment is served. *)
Definition image_url (file : Listings.Upload) : string :=
  "/uploads/" ++ JS.Number_toString (Listings.stored_at file) ++ "-"
  ++ Listings.originalname file.

(** A status the view knows: completed, pending or cancelled, in any
    case of letters. *)
Definition known_status (status : string) : Prop :=
  ci_equal status "completed" \/ ci_equal status "pending"
  \/ ci_equal status "cancelled".

(** The test the tab triggers count with: the lowered status is the
    given name. *)
Definition status_is (name : string) (p : Payments.Payment) : bool :=
  (JS.toLowerCase (Payments.status p) =? name)%string.

(** The notice under an empty table. *)
Definition no_match_notice : string :=
  "No payments match your search criteria.".

(** The columns the sort comparator has a case for. *)
Definition sortable : list string :=
  ["date"; "amount"; "buyer"; "seller"; "status"].

Module TestFormat.

(** Amounts print as plain decimal numbers. *)
#[export] Instance format : Payments.NumberFormat :=
  {| Payments.toLocaleString := JS.Number_toString |}.

End TestFormat.

Module Dated.
Import Payments.

Definition early : Payment :=
  mkPayment "5" "O-5" (Some "E") None None 10 10 10 0 "bank" "bank"
    None "pending" (Some "1000") [].

Definition late : Payment :=
  mkPayment "6" "O-6" (Some "L") None None 20 20 20 0 "bank" "bank"
    None "Completed" (Some "2000") [].

Definition undated : Payment :=
  mkPayment "7" "O-7" (Some "U") None None 30 30 30 0 "cash" "cash"
    None "refunded" None [].

Definition table (column : option string) (direction : SortDirection)
  : State :=
  mkState [late; early; undated] "" column direction false.

End Dated.

(** ** Where the runtime model is exact, and case-blind comparison *)

(** A text of ASCII characters. *)
Fixpoint is_ascii (s : string) : bool :=
  match s with
  | EmptyString => true
  | String c r => (JS.code c <? 128) && is_ascii r
  end.



(** [Number.isSafeInteger] *)
Definition safe_integer (n : Z) : Prop :=
  - (2 ^ 53 - 1) <= n <= 2 ^ 53 - 1.

(** [u] is a capital letter A to Z and [l] the same letter in lower
    case, 32 places further in the ASCII table. *)
Definition case_pair (u l : ascii) : Prop :=
  65 <= JS.code u <= 90 /\ JS.code l = JS.code u + 32.

(** The same character, or the same letter in the other case. *)
Definition same_letter (a b : ascii) : Prop :=
  a = b \/ case_pair a b \/ case_pair b a.

(** Two texts that differ at most in the case of their letters. *)
Inductive same_ignoring_case : string -> string -> Prop :=
| same_nil : same_ignoring_case "" ""
| same_cons (a b : ascii) (s t : string) :
    same_letter a b -> same_ignoring_case s t ->
    same_ignoring_case (String a s) (String b t).



(** A status that is completed, pending or cancelled when the case of
    letters is ignored. *)
Definition recognised_status (status : string) : Prop :=
  same_ignoring_case status "completed"
  \/ same_ignoring_case status "pending"
  \/ same_ignoring_case status "cancelled".







Module Cases.
Import Payments.

(** An order whose buyer and seller are empty texts and whose buyer
    identifier is zero. *)
Definition blank : Raw.Order :=
  Raw.mkOrder "20" "ORD-D4" (Some "") (Some "") (Some 0) 10 10 0 "cash"
    None "pending" None None.

(** Records whose texts and statuses are written in mixed case. *)
Definition shouting : Payment :=
  mkPayment "41" "ord-7" (Some "ALICE Khan") None None 10 10 10 0
    "cash" "cash" None "Completed" None [].

Definition whisper : Payment :=
  mkPayment "42" "ORD-A1" (Some "bob") None None 20 20 20 0
    "cash" "cash" None "PENDING" None [].

Definition plain : Payment :=
  mkPayment "43" "ord-9" (Some "carol") None None 30 30 30 0
    "cash" "cash" None "cancelled" None [].

Definition table (column : option string) (direction : SortDirection)
  : State :=
  mkState [shouting; whisper; plain] "" column direction false.





End Cases.

(* ===================================================================== *)
(** * Properties *)
(* ===================================================================== *)

(** ** Runtime functions *)

Section StringFacts.

Lemma startsWith_app (t b : string) : JS.startsWith (t ++ b) t = true.
Proof.
  induction t as [|c t IH]; simpl.
  - destruct b; reflexivity.
  - rewrite Ascii.eqb_refl. exact IH.
Qed.

Lemma startsWith_inv (s t : string) :
  JS.startsWith s t = true -> exists b, s = t ++ b.
Proof.
  revert s. induction t as [|c t IH]; intros s H.
  - exists s. reflexivity.
  - destruct s as [|a s]; simpl in H; [discriminate|].
    apply andb_true_iff in H. destruct H as [Hc Hs].
    apply Ascii.eqb_eq in Hc. subst a.
    destruct (IH _ Hs) as [b ->]. exists b. reflexivity.
Qed.

Lemma includes_empty (s : string) : JS.includes s "" = true.
Proof. destruct s; reflexivity. Qed.

Lemma includes_nil (t : string) :
  JS.includes "" t = JS.startsWith "" t || false.
Proof. reflexivity. Qed.

Lemma includes_cons (c : ascii) (s t : string) :
  JS.includes (String c s) t = JS.startsWith (String c s) t || JS.includes s t.
Proof. reflexivity. Qed.

Lemma includes_startsWith (s t : string) :
  JS.startsWith s t = true -> JS.includes s t = true.
Proof.
  intros H. destruct s as [|c s].
  - change (JS.startsWith "" t || false = true). rewrite H. reflexivity.
  - change (JS.startsWith (String c s) t || JS.includes s t = true).
    rewrite H. reflexivity.
Qed.

Lemma includes_intro (pre t post : string) :
  JS.includes (pre ++ t ++ post) t = true.
Proof.
  induction pre as [|c pre IH].
  - apply includes_startsWith. exact (startsWith_app t post).
  - simpl. rewrite IH. apply orb_true_r.
Qed.

Lemma includes_inv (s t : string) :
  JS.includes s t = true -> exists pre post, s = pre ++ t ++ post.
Proof.
  induction s as [|c s IH]; intros H.
  - rewrite includes_nil, orb_false_r in H.
    destruct (startsWith_inv _ _ H) as [b Hb]. exists "", b. exact Hb.
  - rewrite includes_cons in H. apply orb_true_iff in H. destruct H as [H|H].
    + destruct (startsWith_inv (String c s) t H) as [b Hb].
      exists "", b. exact Hb.
    + destruct (IH H) as (pre & post & ->).
      exists (String c pre), post. reflexivity.
Qed.

(** [includes] decides occurrence. *)
Lemma includes_iff (s t : string) :
  JS.includes s t = true <-> exists pre post, s = pre ++ t ++ post.
Proof.
  split.
  - apply includes_inv.
  - intros (pre & post & ->). apply includes_intro.
Qed.

Lemma truthy_iff (v : option string) :
  JS.truthy v = true <-> exists s, v = Some s /\ s <> "".
Proof.
  destruct v as [[|c r]|]; simpl; split; try discriminate.
  - intros (s & E & N). inversion E; subst. congruence.
  - intros _. eexists; split; [reflexivity|discriminate].
  - intros _. reflexivity.
  - intros (s & E & _). discriminate.
Qed.

End StringFacts.

Example parseInt_plain : JS.parseInt "42" = Some 42.
Proof. reflexivity. Qed.
Example parseInt_prefix : JS.parseInt "  -17kg" = Some (-17).
Proof. reflexivity. Qed.
Example parseInt_hex : JS.parseInt "0x1F" = Some 31.
Proof. reflexivity. Qed.
Example parseInt_nan : JS.parseInt "abc" = None.
Proof. reflexivity. Qed.
Example parseInt_undefined : JS.parseInt (JS.ToString None) = None.
Proof. reflexivity. Qed.
Example extname_png : JS.extname "cow.PNG" = ".PNG".
Proof. reflexivity. Qed.
Example extname_hidden : JS.extname ".bashrc" = "".
Proof. reflexivity. Qed.
Example extname_two : JS.extname "a.tar.gz" = ".gz".
Proof. reflexivity. Qed.
Example extname_dots : JS.extname ".." = "".
Proof. reflexivity. Qed.
Example extname_none : JS.extname "photo" = "".
Proof. reflexivity. Qed.
Example extname_trailing : JS.extname "photo." = ".".
Proof. reflexivity. Qed.
Example toLowerCase_ex : JS.toLowerCase "Stripe-PAY" = "stripe-pay".
Proof. reflexivity. Qed.
Example Number_toString_ex :
  JS.Number_toString 1730505600000 = "1730505600000".
Proof. reflexivity. Qed.

(** ** The listings service *)

Section ListingsService.
Import Listings.

(** *** Numeric form fields *)

(** A numeric field of the created Listing is unset when [parseInt]
    yields [NaN] and also when it yields zero. *)
Lemma numeric_field_unset_iff (v : option string) :
  numeric_field v = None <->
  JS.parseInt (JS.ToString v) = None \/ JS.parseInt (JS.ToString v) = Some 0.
Proof.
  unfold numeric_field.
  destruct (JS.parseInt (JS.ToString v)) as [[|p|p]|]; simpl; split;
    auto; try discriminate; intros [H|H]; discriminate.
Qed.

Lemma numeric_field_absent : numeric_field None = None.
Proof. reflexivity. Qed.

Lemma numeric_field_parsed (v : option string) (n : Z) :
  JS.parseInt (JS.ToString v) = Some n -> n <> 0 -> numeric_field v = Some n.
Proof.
  unfold numeric_field. intros -> Hn. destruct n; simpl; congruence.
Qed.

(** C1 (evaluation at the diverging input).  A request whose [age] and
    [price] fields are the text "0" parses both as the integer 0, yet the
    created Listing carries neither: the fields are unset although they
    are present and parse as integers. *)
Theorem C1_zero_field_is_unset :
  JS.parseInt "0" = Some 0 /\
  exists l,
    handle [] (POST_listings Samples.calf_post) = ([l], Created l) /\
    age l = None /\ weight l = Some 35 /\ price l = None.
Proof.
  split; [reflexivity|].
  eexists. split; [reflexivity|]. repeat split.
Qed.

(** *** Identifiers *)

(** A request leaves [listings] alone and creates nothing, or appends
    the one Listing it answers with, numbered after the current length. *)
Lemma handle_cases (listings : list Listing) (r : Request) :
  (fst (handle listings r) = listings
   /\ is_created (snd (handle listings r)) = false)
  \/ exists l,
       handle listings r = ((listings ++ [l])%list, Created l)
       /\ id l = Z.of_nat (S (List.length listings)).
Proof.
  destruct r as [|req]; [left; split; reflexivity|].
  unfold handle. destruct (multipart req); cbn [negb].
  - destruct (upload_array 5 (parts req)) as [e|files].
    + left. split; reflexivity.
    + right. eexists. split; [reflexivity|]. cbn [id]. lia.
  - left. split; reflexivity.
Qed.

Lemma created_not_created (r : Response) (rest : list Response) :
  is_created r = false -> created (r :: rest) = created rest.
Proof. destruct r; simpl; intros H; try reflexivity; discriminate. Qed.

(** The collection after a run is the collection before it followed by
    the Listings the run created. *)
Lemma serve_appends (rs : list Request) : forall listings,
  fst (serve listings rs)
  = (listings ++ created (snd (serve listings rs)))%list.
Proof.
  induction rs as [|r rs IH]; intros listings.
  - simpl. rewrite app_nil_r. reflexivity.
  - cbn [serve].
    destruct (handle_cases listings r) as [[Hst Hno]|(l & Hh & _)].
    + destruct (handle listings r) as [listings1 resp].
      cbn [fst snd] in Hst, Hno. subst listings1.
      specialize (IH listings).
      destruct (serve listings rs) as [listings2 resps].
      cbn [fst snd] in *.
      rewrite created_not_created by assumption. exact IH.
    + rewrite Hh. specialize (IH (listings ++ [l])%list).
      destruct (serve (listings ++ [l]) rs) as [listings2 resps].
      cbn [fst snd created] in *. rewrite IH, <- app_assoc. reflexivity.
Qed.

(** The identifiers created by a run count up from the length of the
    collection it started with. *)
Lemma serve_ids (rs : list Request) : forall listings,
  let ls := created (snd (serve listings rs)) in
  map id ls
  = map Z.of_nat (seq (S (List.length listings)) (List.length ls)).
Proof.
  induction rs as [|r rs IH]; intros listings.
  - reflexivity.
  - cbn [serve]. cbv zeta in IH.
    destruct (handle_cases listings r) as [[Hst Hno]|(l & Hh & Hid)].
    + destruct (handle listings r) as [listings1 resp].
      cbn [fst snd] in Hst, Hno. subst listings1.
      specialize (IH listings).
      destruct (serve listings rs) as [listings2 resps].
      cbn [fst snd] in *.
      rewrite created_not_created by assumption. exact IH.
    + rewrite Hh. specialize (IH (listings ++ [l])%list).
      destruct (serve (listings ++ [l]) rs) as [listings2 resps].
      cbn [fst snd created] in *. cbn [map List.length seq].
      rewrite IH, Hid. f_equal.
      rewrite length_app. cbn [List.length]. rewrite Nat.add_1_r.
      reflexivity.
Qed.

Lemma counted_nth (ls : list Listing) (i : nat) (a : Listing) :
  map id ls = map Z.of_nat (seq 1 (List.length ls)) ->
  nth_error ls i = Some a -> id a = Z.of_nat (S i).
Proof.
  intros Hmap Hi.
  assert (Hlt : (i < List.length ls)%nat).
  { apply nth_error_Some. congruence. }
  pose proof (map_nth_error id _ _ Hi) as Hn.
  rewrite Hmap in Hn.
  apply (nth_error_nth _ _ (Z.of_nat 0)) in Hn.
  rewrite map_nth, seq_nth in Hn by assumption.
  rewrite <- Hn. reflexivity.
Qed.

(** C2.  In a process lifetime (the collection starts empty and any
    sequence of requests is served), the Listings created by the
    successful POSTs are exactly the stored collection, their identifiers
    are 1, 2, ..., n in order of creation: no two are equal, each is one
    more than the one assigned by the previous successful POST, and a
    later one is greater than an earlier one. *)
Theorem C2_identifiers_count_up (rs : list Request) :
  let ls := created (snd (lifetime rs)) in
  fst (lifetime rs) = ls
  /\ map id ls = map Z.of_nat (seq 1 (List.length ls))
  /\ NoDup (map id ls)
  /\ (forall i a b,
        nth_error ls i = Some a -> nth_error ls (S i) = Some b ->
        id b = id a + 1)
  /\ (forall i j a b,
        (i < j)%nat -> nth_error ls i = Some a -> nth_error ls j = Some b ->
        id a < id b).
Proof.
  intros ls.
  assert (Hmap : map id ls = map Z.of_nat (seq 1 (List.length ls))).
  { exact (serve_ids rs []). }
  split; [exact (serve_appends rs [])|].
  split; [exact Hmap|]. split; [|split].
  - rewrite Hmap. apply Finite.Injective_map_NoDup.
    + intros x y. apply Nat2Z.inj.
    + apply seq_NoDup.
  - intros i a b Ha Hb.
    rewrite (counted_nth ls i a Hmap Ha), (counted_nth ls (S i) b Hmap Hb).
    lia.
  - intros i j a b Hij Ha Hb.
    rewrite (counted_nth ls i a Hmap Ha), (counted_nth ls j b Hmap Hb).
    lia.
Qed.

(** The run used to exercise the statement above: two accepted POSTs
    around a listing read and a refused upload. *)
Lemma C2_identifiers_count_up_witness :
  let rs := [POST_listings Samples.calf_post; GET_listings;
             POST_listings (Samples.post_with [Samples.animation]);
             POST_listings (Samples.post_with [Samples.photo])] in
  exists a b,
    nth_error (created (snd (lifetime rs))) 0 = Some a
    /\ nth_error (created (snd (lifetime rs))) 1 = Some b
    /\ id b = id a + 1 /\ id a < id b.
Proof.
  intros rs.
  destruct (C2_identifiers_count_up rs) as (_ & _ & _ & Hstep & Hlt).
  eexists. eexists.
  split; [reflexivity|]. split; [reflexivity|]. split.
  - apply (Hstep 0%nat); reflexivity.
  - apply (Hlt 0%nat 1%nat); [lia|reflexivity|reflexivity].
Defined.

(** *** Upload validation *)

Lemma fileFilter_cases (file : Upload) :
  fileFilter file = inr true
  \/ fileFilter file = inl (Error "Only JPEG/PNG images are allowed").
Proof.
  unfold fileFilter.
  destruct (filetypes_test _ && filetypes_test _); [left|right]; reflexivity.
Qed.

Lemma upload_array_refuses (ps : list Upload) : forall left file,
  In file ps -> refused file -> exists e, upload_array left ps = inl e.
Proof.
  induction ps as [|p ps IH]; intros left file Hin Hbad; [destruct Hin|].
  cbn [upload_array].
  destruct (negb (fieldname p =? "images")%string);
    [eexists; reflexivity|].
  destruct left as [|left']; [eexists; reflexivity|].
  destruct (fileFilter_cases p) as [Hok|Herr];
    [rewrite Hok|rewrite Herr; eexists; reflexivity].
  destruct (size p >? fileSize) eqn:Hsz; [eexists; reflexivity|].
  destruct Hin as [->|Hin].
  - destruct Hbad as [Hf|Hs]; [congruence|].
    rewrite Z.gtb_ltb in Hsz. apply Z.ltb_ge in Hsz. lia.
  - destruct (IH left' file Hin Hbad) as [e ->]. eexists; reflexivity.
Qed.

(** A POST carrying an attachment that [fileFilter] refuses, or one
    longer than [fileSize], fails and leaves [listings] as it was. *)
Lemma refused_upload_creates_nothing (listings : list Listing)
    (req : PostRequest) (file : Upload) :
  In file (parts req) -> refused file ->
  exists e, handle listings (POST_listings req) = (listings, Failed e).
Proof.
  intros Hin Hbad. unfold handle.
  destruct (multipart req); cbn [negb]; [|eexists; reflexivity].
  destruct (upload_array_refuses _ 5%nat _ Hin Hbad) as [e ->].
  eexists; reflexivity.
Qed.

Lemma refused_upload_creates_nothing_witness :
  exists e,
    handle [] (POST_listings (Samples.post_with [Samples.photo; Samples.animation]))
    = ([], Failed e).
Proof.
  apply (refused_upload_creates_nothing [] _ Samples.animation).
  - simpl. right. left. reflexivity.
  - left. vm_compute. discriminate.
Defined.

(** Every JPEG or PNG image in the sense of the specification passes
    [fileFilter]; the converse fails (see below). *)
Lemma fileFilter_accepts_images (file : Upload) :
  spec_is_jpeg_or_png file = true -> fileFilter file = inr true.
Proof.
  unfold spec_is_jpeg_or_png, fileFilter. intros H.
  apply andb_true_iff in H. destruct H as [He Hm].
  assert (E : filetypes_test (JS.toLowerCase (JS.extname (originalname file))) = true).
  { repeat (apply orb_true_iff in He; destruct He as [He|He]);
      apply String.eqb_eq in He; rewrite He; reflexivity. }
  assert (M : filetypes_test (mimetype file) = true).
  { repeat (apply orb_true_iff in Hm; destruct Hm as [Hm|Hm]);
      apply String.eqb_eq in Hm; rewrite Hm; reflexivity. }
  rewrite E, M. reflexivity.
Qed.

(** C3 (evaluation at the diverging input).  A request carrying a video
    clip ([clip.jpgv], declared as [video/jpeg], 200 KB) contains an
    attachment that is not a JPEG or PNG image by its extension and by
    its media type; [fileFilter] accepts it, the request succeeds and a
    Listing is created. *)
Theorem C3_video_clip_is_accepted :
  spec_is_jpeg_or_png Samples.clip = false
  /\ size Samples.clip <= fileSize
  /\ fileFilter Samples.clip = inr true
  /\ exists l,
       handle [] (POST_listings (Samples.post_with [Samples.photo; Samples.clip]))
       = ([l], Created l)
       /\ images l = ["/uploads/1748768400000-goat.JPG";
                      "/uploads/1748768400001-clip.jpgv"].
Proof.
  split; [reflexivity|]. split; [vm_compute; discriminate|].
  split; [reflexivity|].
  eexists. split; reflexivity.
Qed.

End ListingsService.

(** ** The payments view: fetch and transformation *)

Section PaymentsFetch.
Import Payments.

(** Whatever the state the effect starts in, a failed fetch throws
    nothing out of [fetchPayments], leaves [payments] as it was, adds one
    notification and ends with the loading flag off. *)
Lemma fetchPayments_failure (network : Settled) (w : World) :
  fetch_failed network ->
  fst (fetchPayments network w) = inr tt
  /\ payments (view (snd (fetchPayments network w))) = payments (view w)
  /\ isLoading (view (snd (fetchPayments network w))) = false
  /\ toasts (snd (fetchPayments network w))
     = (toasts w ++ [failure_message])%list.
Proof.
  destruct network as [e|[orders|]]; simpl; intros H; try contradiction;
    repeat split.
Qed.

Lemma fetchPayments_failure_witness :
  toasts (snd (fetchPayments (rejected (AxiosError "Network Error"))
                 (mkWorld initial [] [])))
  = [failure_message].
Proof.
  apply (fetchPayments_failure (rejected (AxiosError "Network Error"))
           (mkWorld initial [] [])).
  exact I.
Defined.

(** A fetch that succeeds shows the transformed orders and no
    notification. *)
Lemma mount_success (orders : list Raw.Order) :
  mount (resolved (array orders))
  = (inr tt,
     {| view := {| payments := map transform orders; searchTerm := "";
                   sortColumn := None; sortDirection := asc;
                   isLoading := false |};
        toasts := [];
        console := ["Payment data from backend:"] |}).
Proof. reflexivity. Qed.

(** C4.  When the fetch made on mount fails (the request is rejected,
    or its answer cannot be mapped), the effect completes without
    throwing (the view does not crash), the view is no longer loading,
    its payments list is empty, and exactly one error notification has
    been emitted. *)
Theorem C4_failed_fetch_fails_soft (network : Settled) :
  fetch_failed network ->
  fst (mount network) = inr tt
  /\ isLoading (view (snd (mount network))) = false
  /\ payments (view (snd (mount network))) = []
  /\ toasts (snd (mount network)) = [failure_message]
  /\ List.length (toasts (snd (mount network))) = 1%nat.
Proof.
  intros H. unfold mount.
  destruct (fetchPayments_failure network (mkWorld initial [] []) H)
    as (Hr & Hp & Hl & Ht).
  rewrite Hr, Hp, Hl, Ht. repeat split.
Qed.

Lemma C4_failed_fetch_fails_soft_witness :
  fst (mount (rejected (AxiosError "Network Error"))) = inr tt
  /\ isLoading (view (snd (mount (rejected (AxiosError "Network Error"))))) = false
  /\ payments (view (snd (mount (rejected (AxiosError "Network Error"))))) = []
  /\ toasts (snd (mount (rejected (AxiosError "Network Error"))))
     = [failure_message]
  /\ List.length (toasts (snd (mount (rejected (AxiosError "Network Error")))))
     = 1%nat.
Proof.
  apply (C4_failed_fetch_fails_soft (rejected (AxiosError "Network Error"))).
  simpl. exact I.
Defined.

(** *** Fallback display strings *)

Lemma or_else_present (v : option string) (d s : string) :
  v = Some s -> s <> "" -> JS.or_else v d = s.
Proof. intros -> Hs. destruct s; [congruence|reflexivity]. Qed.

Lemma or_else_absent (v : option string) (d : string) :
  ~ present v -> JS.or_else v d = d.
Proof.
  intros H. destruct v as [[|c r]|]; try reflexivity.
  elim H. eexists. split; [reflexivity|discriminate].
Qed.

(** C5 (counterexample).  For an order with neither buyer nor buyer
    identifier the view model's buyer is "Buyer ID: Unknown", not
    "Unknown". *)
Lemma C5_buyer_fallback_counterexample :
  buyer (transform Orders.anonymous) = Some "Buyer ID: Unknown"
  /\ SpecWords.buyer_display Orders.anonymous = "Unknown"
  /\ buyer (transform Orders.anonymous)
     <> Some (SpecWords.buyer_display Orders.anonymous).
Proof.
  split; [reflexivity|]. split; [reflexivity|]. vm_compute. discriminate.
Qed.

(** C5 (amended).  The view model's buyer is the raw buyer when that is
    present (neither null nor empty).  Otherwise it is "Buyer ID: {id}"
    when the buyer identifier is present and not zero (a safe integer,
    printed in decimal), and "Buyer ID: Unknown" when the identifier is
    missing or zero.  Its seller is the raw seller when present and
    "Unknown Seller" otherwise.  The cases cover every order. *)
Theorem C5_buyer_seller_fallbacks (order : Raw.Order) :
  (present (Raw.buyer order) -> buyer (transform order) = Raw.buyer order)
  /\ (~ present (Raw.buyer order) ->
      forall n, Raw.buyerId order = Some n -> n <> 0 -> safe_integer n ->
        buyer (transform order)
        = Some ("Buyer ID: " ++ JS.Number_toString n))
  /\ (~ present (Raw.buyer order) ->
      Raw.buyerId order = None \/ Raw.buyerId order = Some 0 ->
      buyer (transform order) = Some "Buyer ID: Unknown")
  /\ (present (Raw.seller order) ->
      seller (transform order) = Raw.seller order)
  /\ (~ present (Raw.seller order) ->
      seller (transform order) = Some "Unknown Seller").
Proof.
  unfold transform; cbn [buyer seller].
  split; [|split; [|split; [|split]]].
  - intros (b & Hb & Hne). rewrite Hb.
    rewrite (or_else_present _ _ b eq_refl Hne). reflexivity.
  - intros Hno n Hid Hn _. rewrite (or_else_absent _ _ Hno), Hid.
    destruct n; [congruence| |]; reflexivity.
  - intros Hno [Hid|Hid]; rewrite (or_else_absent _ _ Hno), Hid;
      reflexivity.
  - intros (b & Hb & Hne). rewrite Hb.
    rewrite (or_else_present _ _ b eq_refl Hne). reflexivity.
  - intros Hno. rewrite (or_else_absent _ _ Hno). reflexivity.
Qed.

Lemma C5_buyer_seller_fallbacks_witness :
  buyer (transform Orders.known) = Some "Alice"
  /\ buyer (transform Orders.no_name) = Some "Buyer ID: 42"
  /\ buyer (transform Orders.anonymous) = Some "Buyer ID: Unknown"
  /\ buyer (transform Cases.blank) = Some "Buyer ID: Unknown"
  /\ seller (transform Orders.known) = Some "Green Farm"
  /\ seller (transform Cases.blank) = Some "Unknown Seller".
Proof.
  pose proof (C5_buyer_seller_fallbacks Orders.known)
    as (Kb & _ & _ & Ks & _).
  pose proof (C5_buyer_seller_fallbacks Orders.no_name) as (_ & Nb & _).
  pose proof (C5_buyer_seller_fallbacks Orders.anonymous)
    as (_ & _ & Ab & _).
  pose proof (C5_buyer_seller_fallbacks Cases.blank)
    as (_ & _ & Bb & _ & Bs).
  split; [|split; [|split; [|split; [|split]]]].
  - apply Kb. exists "Alice". split; [reflexivity|discriminate].
  - apply (Nb ltac:(intros (b & E & _); discriminate E) 42);
      [reflexivity|lia|unfold safe_integer; lia].
  - apply Ab; [intros (b & E & _); discriminate E|left; reflexivity].
  - apply Bb; [|right; reflexivity].
    intros (b & E & Hne). inversion E; subst. apply Hne. reflexivity.
  - apply Ks. exists "Green Farm". split; [reflexivity|discriminate].
  - apply Bs. intros (b & E & Hne). inversion E; subst. apply Hne.
    reflexivity.
Defined.

(** C10.  The view model's amount is the raw order's total and its
    method is the raw order's paymentMethod, for every raw order; total,
    subtotal and tax are carried over unchanged, and the amount is the
    total also where the total differs from subtotal plus tax. *)
Theorem C10_amount_is_total :
  (forall order : Raw.Order,
     amount (transform order) = Raw.total order
     /\ method (transform order) = Raw.paymentMethod order
     /\ total (transform order) = Raw.total order
     /\ subtotal (transform order) = Raw.subtotal order
     /\ tax (transform order) = Raw.tax order)
  /\ amount (transform Orders.anonymous) = 1500
  /\ subtotal (transform Orders.anonymous) + tax (transform Orders.anonymous)
     = 1450.
Proof.
  split; [intros order; repeat split|]. split; reflexivity.
Qed.

End PaymentsFetch.

(** ** Case folding *)

Section CaseFacts.

Lemma code_range (c : ascii) : 0 <= JS.code c < 256.
Proof.
  unfold JS.code. pose proof (N_ascii_bounded c). lia.
Qed.

Lemma code_inj (a b : ascii) : JS.code a = JS.code b -> a = b.
Proof.
  unfold JS.code. intros H. apply N2Z.inj in H.
  rewrite <- (ascii_N_embedding a), <- (ascii_N_embedding b), H.
  reflexivity.
Qed.

Lemma code_lower_char (c : ascii) :
  JS.code (JS.lower_char c)
  = if (65 <=? JS.code c) && (JS.code c <=? 90)
    then JS.code c + 32 else JS.code c.
Proof. destruct c as [[] [] [] [] [] [] [] []]; reflexivity. Qed.

Lemma code_upper_char (c : ascii) :
  JS.code (JS.upper_char c)
  = if (97 <=? JS.code c) && (JS.code c <=? 122)
    then JS.code c - 32 else JS.code c.
Proof. destruct c as [[] [] [] [] [] [] [] []]; reflexivity. Qed.

Lemma is_capital (c : ascii) :
  (65 <=? JS.code c) && (JS.code c <=? 90) = true <-> 65 <= JS.code c <= 90.
Proof. rewrite andb_true_iff, !Z.leb_le. reflexivity. Qed.

(** [lower_char] identifies exactly a character with itself and a
    capital with its small letter. *)
Lemma lower_char_same (a b : ascii) :
  JS.lower_char a = JS.lower_char b <-> same_letter a b.
Proof.
  unfold same_letter, case_pair. split.
  - intros H. apply (f_equal JS.code) in H.
    rewrite !code_lower_char in H.
    destruct ((65 <=? JS.code a) && (JS.code a <=? 90)) eqn:Ea;
      destruct ((65 <=? JS.code b) && (JS.code b <=? 90)) eqn:Eb;
      try apply is_capital in Ea; try apply is_capital in Eb.
    + left. apply code_inj. lia.
    + right. left. split; [exact Ea|lia].
    + right. right. split; [exact Eb|lia].
    + left. apply code_inj. exact H.
  - intros [->|[[Ha Hb]|[Hb Ha]]]; [reflexivity| |];
      apply code_inj; rewrite !code_lower_char.
    + rewrite (proj2 (is_capital a) Ha).
      destruct ((65 <=? JS.code b) && (JS.code b <=? 90)) eqn:Eb;
        [apply is_capital in Eb; lia|lia].
    + rewrite (proj2 (is_capital b) Hb).
      destruct ((65 <=? JS.code a) && (JS.code a <=? 90)) eqn:Ea;
        [apply is_capital in Ea; lia|lia].
Qed.

(** Two texts have the same lower-case form exactly when they differ
    at most in the case of their letters. *)
Lemma toLowerCase_same (a b : string) :
  JS.toLowerCase a = JS.toLowerCase b <-> same_ignoring_case a b.
Proof.
  revert b. induction a as [|x a IH]; intros [|y b]; cbn; split; intros H;
    try discriminate; try (inversion H; fail); try constructor.
  - apply lower_char_same. congruence.
  - apply IH. congruence.
  - inversion H; subst. f_equal; [apply lower_char_same|apply IH];
      assumption.
Qed.

Lemma same_ignoring_case_refl (a : string) : same_ignoring_case a a.
Proof. apply toLowerCase_same. reflexivity. Qed.

Lemma toLowerCase_app (a b : string) :
  JS.toLowerCase (a ++ b) = JS.toLowerCase a ++ JS.toLowerCase b.
Proof.
  induction a as [|c a IH]; cbn; [reflexivity|]. rewrite IH. reflexivity.
Qed.

Lemma append_assoc3 (a b c : string) : (a ++ b) ++ c = a ++ b ++ c.
Proof.
  induction a as [|x a IH]; cbn; [reflexivity|]. rewrite IH. reflexivity.
Qed.



Lemma is_ascii_app (a b : string) :
  is_ascii (a ++ b) = true <-> is_ascii a = true /\ is_ascii b = true.
Proof.
  induction a as [|c a IH]; cbn.
  - tauto.
  - rewrite !andb_true_iff, IH. tauto.
Qed.

End CaseFacts.

(** ** The payments view: search *)

Section PaymentsSearch.
Import Payments.

Lemma append_empty_inv (pre t post : string) :
  pre ++ t ++ post = "" -> t = "".
Proof.
  destruct pre; simpl; [|discriminate].
  destruct t; simpl; [reflexivity|discriminate].
Qed.

Lemma includes_ci (term s : string) :
  JS.includes (JS.toLowerCase s) (JS.toLowerCase term) = true
  <-> ci_substring term s.
Proof. apply includes_iff. Qed.

(** A guarded field matches when the field is a string that contains
    the term; an empty field contains only the empty term. *)
Lemma field_includes_true (v : option string) (term : string) :
  field_includes v term = true ->
  exists s, v = Some s /\ ci_substring term s.
Proof.
  destruct v as [[|c r]|]; simpl; try discriminate.
  intros H. exists (String c r). split; [reflexivity|].
  apply includes_ci. exact H.
Qed.

Lemma field_includes_intro (v : option string) (term s : string) :
  v = Some s -> ci_substring term s ->
  field_includes v term = true \/ JS.toLowerCase term = "".
Proof.
  intros -> H. destruct s as [|c r].
  - right. destruct H as (pre & post & E). simpl in E.
    symmetry in E. exact (append_empty_inv _ _ _ E).
  - left. apply includes_ci in H. exact H.
Qed.

Lemma search_empty_term (term : string) (p : Payment) :
  JS.toLowerCase term = "" -> search term p = true.
Proof.
  intros E. unfold search. rewrite E, (includes_empty (JS.toLowerCase (orderId p))).
  rewrite orb_true_r. reflexivity.
Qed.

Lemma search_iff (term : string) (p : Payment) :
  search term p = true <-> term_matches term p.
Proof.
  unfold term_matches. split.
  - unfold search. intros H.
    apply orb_true_iff in H. destruct H as [H|H];
      [apply orb_true_iff in H; destruct H as [H|H];
       [apply orb_true_iff in H; destruct H as [H|H]|]|].
    + left. apply field_includes_true. exact H.
    + right. left. apply field_includes_true. exact H.
    + right. right. left. apply includes_ci. exact H.
    + right. right. right. apply includes_ci. exact H.
  - intros [(s & Hs & H)|[(s & Hs & H)|[H|H]]].
    + destruct (field_includes_intro _ _ _ Hs H) as [Hf|He];
        [|apply search_empty_term; exact He].
      unfold search. rewrite Hf. reflexivity.
    + destruct (field_includes_intro _ _ _ Hs H) as [Hf|He];
        [|apply search_empty_term; exact He].
      unfold search. rewrite Hf, orb_true_r. reflexivity.
    + apply includes_ci in H. unfold search. rewrite H.
      rewrite orb_true_r. reflexivity.
    + apply includes_ci in H. unfold search. rewrite H.
      apply orb_true_r.
Qed.




End PaymentsSearch.

(** ** The payments view: sorting *)

Section SortFacts.
Import Payments.
Context {A : Type} (comparefn : A -> A -> option Z).

Lemma insert_perm (x : A) (l : list A) :
  Permutation (insert comparefn x l) (x :: l).
Proof.
  induction l as [|y r IH]; cbn [insert].
  - apply Permutation_refl.
  - destruct (SortCompare comparefn x y <=? 0).
    + apply Permutation_refl.
    + apply perm_trans with (y :: x :: r).
      * apply perm_skip. exact IH.
      * apply perm_swap.
Qed.

(** Sorting rearranges; no record is lost, added or altered. *)
Lemma sort_perm (l : list A) : Permutation (sort comparefn l) l.
Proof.
  induction l as [|x l IH]; cbn [sort fold_right].
  - apply perm_nil.
  - apply perm_trans with (x :: sort comparefn l).
    + apply insert_perm.
    + apply perm_skip. exact IH.
Qed.




(** A comparator that always answers 0 leaves the order as it is. *)
Lemma sort_unordered (l : list A) :
  (forall x y, SortCompare comparefn x y = 0) -> sort comparefn l = l.
Proof.
  intros H. induction l as [|x l IH]; cbn [sort fold_right];
    [reflexivity|].
  fold (sort comparefn l). rewrite IH.
  destruct l as [|y r]; cbn [insert]; [reflexivity|].
  rewrite H. reflexivity.
Qed.


End SortFacts.

Section PaymentsSort.
Import Payments.
Context {host : Host}.




(** With no column selected the table shows the search result in the
    order it was fetched. *)
Lemma sortedPayments_no_column (s : State) :
  sortColumn s = None -> sortedPayments s = filteredPayments s.
Proof.
  intros E. unfold sortedPayments. rewrite E.
  apply sort_unordered. reflexivity.
Qed.








End PaymentsSort.

(** The stand-in locale orders texts. *)
Section StandInLocale.




End StandInLocale.



(** ** The payments view: the other comparators, tabs and cells *)

Section PaymentsTabs.
Import Payments.
Context {host : Host}.

Lemma same_status_iff (name : string) (p : Payment) :
  JS.toLowerCase name = name ->
  status_is name p = true <-> same_ignoring_case (status p) name.
Proof.
  intros Hn. unfold status_is. rewrite String.eqb_eq, <- toLowerCase_same, Hn.
  reflexivity.
Qed.

Lemma counted_by (name : string) (f : Payment -> bool) (l : list Payment) :
  JS.toLowerCase name = name ->
  (forall p, In p l -> (f p = true <-> same_ignoring_case (status p) name)) ->
  List.length (filter f l) = List.length (filter (status_is name) l).
Proof.
  intros Hn Hf. f_equal. apply filter_ext_in. intros p Hp.
  apply Bool.eq_iff_eq_true.
  rewrite (Hf p Hp), (same_status_iff name p Hn). reflexivity.
Qed.

(** C8.  The "all-payments" tab shows every record of the searched and
    sorted list.  Any other tab shows, from that same list and in its
    order, exactly the records whose status has the same lower-case form
    as the tab name; for ASCII text these are the records whose status is
    the tab name when the case of letters is ignored.  The counts on the
    tab triggers are taken from the fetched collection: its length for
    "all-payments", and for "completed", "pending" and "cancelled" the
    number of fetched records whose status is that name when case is
    ignored; they do not depend on the search term or on the sort
    state. *)
Theorem C8_tabs_and_counts (s : State) :
  filterPaymentsByStatus s "all-payments" = sortedPayments s
  /\ (forall tab, tab <> "all-payments" ->
        filterPaymentsByStatus s tab
        = filter (fun p => (JS.toLowerCase (status p) =? JS.toLowerCase tab)%string)
            (sort (comparator (sortColumn s) (sortDirection s))
               (filter (search (searchTerm s)) (payments s))))
  /\ (forall tab p, tab <> "all-payments" ->
        (In p (filterPaymentsByStatus s tab)
         <-> In p (sortedPayments s) /\ ci_equal (status p) tab))
  /\ (forall tab p, tab <> "all-payments" ->
        is_ascii tab = true -> is_ascii (status p) = true ->
        (In p (filterPaymentsByStatus s tab)
         <-> In p (sortedPayments s) /\ same_ignoring_case (status p) tab))
  /\ TabsList s
     = map (fun tab =>
              (tab,
               if (tab =? "all-payments")%string
               then List.length (payments s)
               else List.length
                      (filter (fun p => (JS.toLowerCase (status p)
                                         =? JS.toLowerCase tab)%string)
                         (payments s))))
         tabs
  /\ In ("all-payments", List.length (payments s)) (TabsList s)
  /\ (forall name (f : Payment -> bool),
        In name ["completed"; "pending"; "cancelled"] ->
        (forall p, In p (payments s) -> is_ascii (status p) = true) ->
        (forall p, In p (payments s) ->
           (f p = true <-> same_ignoring_case (status p) name)) ->
        In (name, List.length (filter f (payments s))) (TabsList s))
  /\ (forall term column d,
        TabsList (mkState (payments s) term column d (isLoading s))
        = TabsList s).
Proof.
  split; [reflexivity|].
  split; [|split; [|split; [|split; [|split; [|split]]]]].
  - intros tab Hne. unfold filterPaymentsByStatus.
    destruct (String.eqb_spec tab "all-payments") as [E|_];
      [contradiction|reflexivity].
  - intros tab p Hne. unfold filterPaymentsByStatus.
    destruct (String.eqb_spec tab "all-payments") as [E|_];
      [contradiction|].
    rewrite filter_In. unfold ci_equal.
    rewrite String.eqb_eq. reflexivity.
  - intros tab p Hne _ _. unfold filterPaymentsByStatus.
    destruct (String.eqb_spec tab "all-payments") as [E|_];
      [contradiction|].
    rewrite filter_In, String.eqb_eq, toLowerCase_same. reflexivity.
  - reflexivity.
  - left. reflexivity.
  - intros name f Hname _ Hf. unfold TabsList, count_status.
    destruct Hname as [<-|[<-|[<-|[]]]];
      rewrite (counted_by _ f (payments s) eq_refl Hf); simpl; auto.
  - reflexivity.
Qed.

(** *** Cells *)

Lemma truthy_present (v : option string) : JS.truthy v = true <-> present v.
Proof. apply truthy_iff. Qed.

Lemma not_truthy_absent (v : option string) :
  JS.truthy v = false <-> ~ present v.
Proof.
  rewrite <- truthy_present. destruct (JS.truthy v); split; intros H;
    try reflexivity; try discriminate; congruence.
Qed.

(** C9 (amended).  The payment-details cell shows "{bank} - {account}"
    when bank name and account number are both present (non-empty),
    "Stripe Payment" when they are not both present and a payment-intent
    identifier is present (also when one of the two bank fields is),
    and "N/A" otherwise, in particular when paymentDetails is null.  The
    date cell shows "N/A" exactly when the date is missing (null,
    undefined or empty), the host never printing a date as "N/A". *)
Theorem C9_cells (p : Payment) :
  (forall text, toLocaleDateString text <> "N/A") ->
  (paymentDetails p = None ->
     formatPaymentDetails (paymentDetails p) = "N/A")
  /\ (forall d bank account,
        paymentDetails p = Some d ->
        bankName d = Some bank -> bank <> "" ->
        accountNumber d = Some account -> account <> "" ->
        formatPaymentDetails (paymentDetails p) = bank ++ " - " ++ account)
  /\ (forall d,
        paymentDetails p = Some d ->
        ~ (present (bankName d) /\ present (accountNumber d)) ->
        present (stripePaymentIntentId d) ->
        formatPaymentDetails (paymentDetails p) = "Stripe Payment")
  /\ (forall d,
        paymentDetails p = Some d ->
        ~ (present (bankName d) /\ present (accountNumber d)) ->
        ~ present (stripePaymentIntentId d) ->
        formatPaymentDetails (paymentDetails p) = "N/A")
  /\ (formatDate (date p) = "N/A" <-> ~ present (date p)).
Proof.
  intros Hhost. split; [|split; [|split; [|split]]].
  - intros ->. reflexivity.
  - intros d bank account -> Hb Hbne Ha Hane. unfold formatPaymentDetails.
    rewrite Hb, Ha. destruct bank; [congruence|].
    destruct account; [congruence|]. reflexivity.
  - intros d -> Hnot Hs. unfold formatPaymentDetails.
    apply truthy_present in Hs. rewrite Hs.
    destruct (JS.truthy (bankName d)) eqn:Eb;
      destruct (JS.truthy (accountNumber d)) eqn:Ea; try reflexivity.
    elim Hnot. split; apply truthy_present; assumption.
  - intros d -> Hnot Hs. unfold formatPaymentDetails.
    apply not_truthy_absent in Hs. rewrite Hs.
    destruct (JS.truthy (bankName d)) eqn:Eb;
      destruct (JS.truthy (accountNumber d)) eqn:Ea; try reflexivity.
    elim Hnot. split; apply truthy_present; assumption.
  - rewrite <- not_truthy_absent. unfold formatDate.
    destruct (date p) as [[|c r]|]; simpl; split; intros H;
      try reflexivity; try discriminate.
    elim (Hhost _ H).
Qed.

End PaymentsTabs.

Lemma TestHost_never_NA (text : string) :
  TestHost.toLocaleDateString text <> "N/A".
Proof.
  unfold TestHost.toLocaleDateString.
  destruct (TestHost.getTime text); simpl; discriminate.
Qed.

(** A record whose status is written "Completed" is shown in the
    "completed" tab and counted on its trigger; "all-payments" keeps
    every record. *)
Lemma C8_tabs_and_counts_witness :
  In Cases.shouting
    (@Payments.filterPaymentsByStatus TestHost.host
       (Cases.table None Payments.asc) "completed")
  /\ In ("completed", 1%nat) (Payments.TabsList (Cases.table None Payments.asc))
  /\ @Payments.filterPaymentsByStatus TestHost.host
       (Orders.table None Payments.asc) "all-payments"
     = [Orders.A; Orders.B].
Proof.
  pose proof (@C8_tabs_and_counts TestHost.host
                (Cases.table None Payments.asc))
    as (_ & _ & _ & Hin & _ & _ & Hcount & _).
  pose proof (@C8_tabs_and_counts TestHost.host
                (Orders.table None Payments.asc)) as (Hall & _).
  split; [|split].
  - apply (Hin "completed" Cases.shouting);
      [discriminate|reflexivity|reflexivity|].
    split; [left; reflexivity|].
    apply toLowerCase_same. reflexivity.
  - apply (Hcount "completed"
             (fun p => (Payments.id p =? "41")%string)).
    + left. reflexivity.
    + intros p [<-|[<-|[<-|[]]]]; reflexivity.
    + intros p [<-|[<-|[<-|[]]]]; cbn; split; intros H;
        try discriminate H; try reflexivity;
        try (apply toLowerCase_same; reflexivity);
        apply toLowerCase_same in H; discriminate H.
  - rewrite Hall. reflexivity.
Defined.

Lemma C9_cells_witness :
  Payments.formatPaymentDetails
    (Payments.paymentDetails (Payments.transform Orders.known))
  = "HBL - 0012345"
  /\ Payments.formatPaymentDetails
       (Payments.paymentDetails (Payments.transform Orders.anonymous))
     = "Stripe Payment"
  /\ Payments.formatPaymentDetails
       (Payments.paymentDetails (Payments.transform Orders.no_name))
     = "N/A"
  /\ @Payments.formatDate TestHost.host
       (Payments.date (Payments.transform Orders.anonymous)) = "N/A".
Proof.
  pose proof (@C9_cells TestHost.host (Payments.transform Orders.known)
                TestHost_never_NA) as (_ & Hbank & _).
  pose proof (@C9_cells TestHost.host (Payments.transform Orders.anonymous)
                TestHost_never_NA) as (_ & _ & Hstripe & _ & Hdate).
  pose proof (@C9_cells TestHost.host (Payments.transform Orders.no_name)
                TestHost_never_NA) as (Hnull & _).
  split; [|split; [|split]].
  - apply (Hbank (Payments.mkDetails (Some "HBL") (Some "0012345") None)
             "HBL" "0012345"); try reflexivity; discriminate.
  - apply (Hstripe (Payments.mkDetails (Some "HBL") None (Some "pi_3")));
      [reflexivity| |].
    + intros [_ (text & E & _)]. discriminate.
    + exists "pi_3". split; [reflexivity|discriminate].
  - apply Hnull. reflexivity.
  - apply Hdate. intros (text & E & _). discriminate.
Defined.

(** C9 (counterexample).  For details naming a bank and a payment
    intent but no account, the payment-intent identifier is not the only
    member present, yet the cell shows "Stripe Payment", not "N/A". *)
Lemma C9_details_counterexample :
  Payments.paymentDetails (Payments.transform Orders.anonymous)
  = Some (Payments.mkDetails (Some "HBL") None (Some "pi_3"))
  /\ Payments.formatPaymentDetails
       (Payments.paymentDetails (Payments.transform Orders.anonymous))
     = "Stripe Payment"
  /\ SpecWords.details_cell
       (Payments.paymentDetails (Payments.transform Orders.anonymous))
     = "N/A"
  /\ Payments.formatPaymentDetails
       (Payments.paymentDetails (Payments.transform Orders.anonymous))
     <> SpecWords.details_cell
          (Payments.paymentDetails (Payments.transform Orders.anonymous)).
Proof.
  split; [reflexivity|]. split; [reflexivity|]. split; [reflexivity|].
  vm_compute. discriminate.
Qed.

(** ** The examples of the specification, run on the model *)

Section Examples.
Import Payments.
Existing Instance TestHost.host.

Example absent_fields_are_unset :
  map (fun l => (Listings.age l, Listings.weight l, Listings.price l))
    (fst (Listings.handle []
            (Listings.POST_listings
               (Listings.mkPost true Samples.empty_body [] "2025-06-01T09:00:00.000Z"))))
  = [(None, None, None)].
Proof. reflexivity. Qed.

Example images_follow_uploads :
  map Listings.images
    (fst (Listings.handle []
            (Listings.POST_listings (Samples.post_with [Samples.photo]))))
  = [["/uploads/1748768400000-goat.JPG"]].
Proof. reflexivity. Qed.

Example gif_is_refused :
  Listings.handle []
    (Listings.POST_listings (Samples.post_with [Samples.photo; Samples.animation]))
  = ([], Listings.Failed
           (Listings.UploadFailed
              (Listings.Error "Only JPEG/PNG images are allowed"))).
Proof. reflexivity. Qed.

Example oversize_is_refused :
  Listings.handle []
    (Listings.POST_listings (Samples.post_with [Samples.huge_photo]))
  = ([], Listings.Failed (Listings.UploadFailed Listings.LIMIT_FILE_SIZE)).
Proof. reflexivity. Qed.

Example sixth_file_is_refused :
  Listings.handle []
    (Listings.POST_listings
       (Samples.post_with
          [Samples.photo; Samples.photo; Samples.photo; Samples.photo;
           Samples.photo; Samples.photo]))
  = ([], Listings.Failed (Listings.UploadFailed Listings.LIMIT_UNEXPECTED_FILE)).
Proof. reflexivity. Qed.

Example amount_ascending :
  sortedPayments (Orders.table (Some "amount") asc) = [Orders.B; Orders.A].
Proof. reflexivity. Qed.

Example amount_clicked_twice :
  sortedPayments
    (handleSort (handleSort (Orders.table None asc) "amount") "amount")
  = [Orders.A; Orders.B].
Proof. reflexivity. Qed.

Example buyer_descending :
  sortedPayments (Orders.table (Some "buyer") desc) = [Orders.B; Orders.A].
Proof. reflexivity. Qed.

Example completed_tab :
  filterPaymentsByStatus (Orders.table None asc) "completed" = [Orders.B].
Proof. reflexivity. Qed.

Example tab_counts :
  TabsList (Orders.table None asc)
  = [("all-payments", 2%nat); ("completed", 1%nat); ("pending", 1%nat);
     ("cancelled", 0%nat)].
Proof. reflexivity. Qed.

Example missing_date_cell : formatDate None = "N/A".
Proof. reflexivity. Qed.

Example missing_details_cell : formatPaymentDetails None = "N/A".
Proof. reflexivity. Qed.

Example fetched_orders_are_shown :
  map buyer
    (payments (view (snd (mount (resolved (array [Orders.known; Orders.no_name]))))))
  = [Some "Alice"; Some "Buyer ID: 42"].
Proof. reflexivity. Qed.

End Examples.

(* ===================================================================== *)
(** * Further properties of the listings service *)
(* ===================================================================== *)

Section ListingsFurther.
Import Listings.

Lemma upload_array_accepts (ps : list Upload) : forall left files,
  upload_array left ps = inr files ->
  (List.length ps <= left)%nat /\ Forall acceptable ps /\ files = ps.
Proof.
  induction ps as [|p ps IH]; intros left files H.
  - cbn [upload_array] in H. inversion H; subst.
    split; [apply Nat.le_0_l|]. split; [constructor|reflexivity].
  - cbn [upload_array] in H.
    destruct (String.eqb_spec (fieldname p) "images") as [Hf|Hf];
      cbn [negb] in H; [|discriminate].
    destruct left as [|left']; [discriminate|].
    destruct (fileFilter_cases p) as [Hok|Herr];
      [rewrite Hok in H|rewrite Herr in H; discriminate].
    destruct (size p >? fileSize) eqn:Hs; [discriminate|].
    destruct (upload_array left' ps) as [e|fs] eqn:Hr; [discriminate|].
    inversion H; subst. destruct (IH _ _ Hr) as (Hlen & Hall & ->).
    rewrite Z.gtb_ltb in Hs. apply Z.ltb_ge in Hs.
    split; [cbn [List.length]; lia|]. split; [|reflexivity].
    constructor; [|exact Hall]. repeat split; assumption.
Qed.





(** The Listing a successful POST answers with has one image URL per
    attachment, in the order of the attachments, each made of the
    storing time and the client's file name; there are at most five. *)
Theorem created_images (listings : list Listing) (req : PostRequest)
    (l : Listing) :
  snd (handle listings (POST_listings req)) = Created l ->
  images l = map image_url (parts req)
  /\ List.length (images l) = List.length (parts req)
  /\ (List.length (images l) <= 5)%nat.
Proof.
  unfold handle. intros H.
  destruct (multipart req); cbn [negb] in H; [|discriminate].
  destruct (upload_array 5 (parts req)) as [e|files] eqn:Hu;
    [discriminate|].
  destruct (upload_array_accepts _ _ _ Hu) as (Hlen & _ & ->).
  cbn in H. inversion H; subst. cbn [images].
  rewrite length_map. split; [reflexivity|].
  split; [reflexivity|exact Hlen].
Qed.

Lemma created_images_witness :
  exists l,
    images l = ["/uploads/1748768400000-goat.JPG"]
    /\ List.length (images l) = 1%nat.
Proof.
  eexists.
  destruct (created_images [] (Samples.post_with [Samples.photo]) _ eq_refl)
    as (Hi & Hl & _).
  split; [exact Hi|exact Hl].
Defined.

(** A request that is answered with an error leaves the collection as
    it was, whatever the error; a POST that is not multipart is always
    answered with an error. *)
Theorem failed_request_changes_nothing (listings : list Listing) :
  (forall r e,
     snd (handle listings r) = Failed e -> fst (handle listings r) = listings)
  /\ (forall req,
        multipart req = false ->
        exists e, handle listings (POST_listings req) = (listings, Failed e)).
Proof.
  split.
  - intros r e H.
    destruct (handle_cases listings r) as [[Hst _]|(l & Hh & _)];
      [exact Hst|].
    rewrite Hh in H. discriminate.
  - intros req Hm. unfold handle. rewrite Hm. eexists. reflexivity.
Qed.

Lemma failed_request_changes_nothing_witness :
  fst (handle [] (POST_listings (Samples.post_with [Samples.huge_photo]))) = [].
Proof.
  apply (proj1 (failed_request_changes_nothing [])
           (POST_listings (Samples.post_with [Samples.huge_photo]))
           (UploadFailed LIMIT_FILE_SIZE)).
  reflexivity.
Defined.

Lemma created_length (resps : list Response) :
  (List.length (created resps) <= List.length resps)%nat.
Proof.
  induction resps as [|r resps IH]; [apply Nat.le_refl|].
  destruct r; cbn [created List.length]; lia.
Qed.

Lemma serve_length (rs : list Request) : forall listings,
  List.length (snd (serve listings rs)) = List.length rs.
Proof.
  induction rs as [|r rs IH]; intros listings; [reflexivity|].
  cbn [serve]. destruct (handle listings r) as [l1 resp].
  specialize (IH l1). destruct (serve l1 rs) as [l2 resps].
  cbn [snd List.length] in *. rewrite IH. reflexivity.
Qed.

(** The collection only grows, and only at its end: after any run it
    is the collection before the run followed by the Listings the run
    created, at most one per request; the Listing at each earlier
    position is still there, unchanged. *)
Theorem listings_append_only (listings : list Listing) (rs : list Request) :
  fst (serve listings rs)
  = (listings ++ created (snd (serve listings rs)))%list
  /\ (List.length listings <= List.length (fst (serve listings rs))
      <= List.length listings + List.length rs)%nat
  /\ (forall i l,
        nth_error listings i = Some l ->
        nth_error (fst (serve listings rs)) i = Some l).
Proof.
  pose proof (serve_appends rs listings) as E.
  pose proof (created_length (snd (serve listings rs))) as Hc.
  rewrite serve_length in Hc.
  split; [exact E|]. split.
  - rewrite E, length_app. lia.
  - intros i l Hi. rewrite E. rewrite nth_error_app1; [exact Hi|].
    apply nth_error_Some. congruence.
Qed.

Lemma listings_append_only_witness :
  nth_error
    (fst (serve [snd (post_handler [] Samples.calf_body [] "t0")]
            [POST_listings (Samples.post_with [Samples.photo])])) 0
  = Some (snd (post_handler [] Samples.calf_body [] "t0")).
Proof.
  apply (proj2 (proj2 (listings_append_only
                         [snd (post_handler [] Samples.calf_body [] "t0")]
                         [POST_listings (Samples.post_with [Samples.photo])]))).
  reflexivity.
Defined.

Lemma serve_app (rs1 rs2 : list Request) : forall listings,
  fst (serve listings (rs1 ++ rs2))
  = fst (serve (fst (serve listings rs1)) rs2).
Proof.
  induction rs1 as [|r rs1 IH]; intros listings; [reflexivity|].
  cbn [serve app]. destruct (handle listings r) as [l1 resp].
  specialize (IH l1).
  destruct (serve l1 (rs1 ++ rs2)) as [l2 resps].
  destruct (serve l1 rs1) as [l3 resps3].
  cbn [fst] in *. exact IH.
Qed.

(** Reading is free of effects and complete: [GET /listings] after a
    process lifetime answers with every Listing created so far, in the
    order of creation, and a GET anywhere in a run can be left out
    without changing the collection the run ends with. *)
Theorem get_listings_reads_all (rs : list Request) :
  handle (fst (lifetime rs)) GET_listings
  = (fst (lifetime rs), OK (created (snd (lifetime rs))))
  /\ (forall listings rs1 rs2,
        fst (serve listings (rs1 ++ GET_listings :: rs2))
        = fst (serve listings (rs1 ++ rs2))).
Proof.
  split.
  - cbn [handle]. unfold lifetime.
    rewrite (serve_appends rs []) at 2. reflexivity.
  - intros listings rs1 rs2. rewrite !serve_app. cbn [serve handle].
    destruct (serve (fst (serve listings rs1)) rs2). reflexivity.
Qed.

Lemma handle_created_inv (listings : list Listing) (r : Request)
    (l : Listing) :
  snd (handle listings r) = Created l ->
  exists body files now, l = snd (post_handler listings body files now).
Proof.
  destruct r as [|req]; [discriminate|]. unfold handle.
  destruct (multipart req); cbn [negb]; [|discriminate].
  destruct (upload_array 5 (parts req)) as [e|files]; [discriminate|].
  cbn. intros H. inversion H. eexists _, _, _. reflexivity.
Qed.

Lemma numeric_field_nonzero (v : option string) : numeric_field v <> Some 0.
Proof.
  unfold numeric_field.
  destruct (JS.parseInt (JS.ToString v)) as [[|p|p]|]; simpl; discriminate.
Qed.

Lemma serve_created_all (P : Listing -> Prop) :
  (forall listings body files now,
     P (snd (post_handler listings body files now))) ->
  forall rs listings, Forall P (created (snd (serve listings rs))).
Proof.
  intros HP. induction rs as [|r rs IH]; intros listings; [constructor|].
  cbn [serve]. destruct (handle listings r) as [l1 resp] eqn:Hh.
  specialize (IH l1). destruct (serve l1 rs) as [l2 resps].
  cbn [snd] in *. destruct resp as [json|l|e]; cbn [created]; try exact IH.
  constructor; [|exact IH].
  destruct (handle_created_inv listings r l) as (b & fs & n & ->);
    [rewrite Hh; reflexivity|]. apply HP.
Qed.

(** Every Listing stored during a process lifetime is active, is rated
    4.5, and has each of age, weight and price either unset or different
    from zero. *)
Theorem stored_listings_invariant (rs : list Request) :
  Forall (fun l =>
            status l = "active"
            /\ rating l = QArith_base.Qmake 9 2
            /\ age l <> Some 0 /\ weight l <> Some 0 /\ price l <> Some 0)
    (fst (lifetime rs)).
Proof.
  unfold lifetime. rewrite (serve_appends rs []). cbn [app].
  apply serve_created_all. intros listings body files now.
  cbn. repeat split; apply numeric_field_nonzero.
Qed.

End ListingsFurther.

Section UploadNames.
Import Listings.

Lemma ext_step_no_dot (st : JS.ExtScan) (i : Z) (c : ascii) :
  c <> "."%char -> JS.startDot st = -1 ->
  JS.startDot (JS.ext_step st (i, c)) = -1.
Proof.
  intros Hc Hst. unfold JS.ext_step.
  destruct (JS.stopped st); [exact Hst|].
  destruct (Ascii.eqb c "/").
  - destruct (negb (JS.matchedSlash st)); [exact Hst|exact Hst].
  - destruct (Ascii.eqb_spec c "."%char) as [E|_]; [contradiction|].
    destruct (JS.end_ st =? -1); cbn [JS.startDot]; rewrite Hst;
      change (-1 =? -1) with true; cbn [negb JS.startDot];
      solve [reflexivity | exact Hst].
Qed.

Lemma scan_no_dot (l : list (Z * ascii)) : forall st,
  (forall ic, In ic l -> snd ic <> "."%char) ->
  JS.startDot st = -1 ->
  JS.startDot (fold_left JS.ext_step l st) = -1.
Proof.
  induction l as [|[i c] l IH]; intros st Hl Hst; [exact Hst|].
  cbn [fold_left]. apply IH.
  - intros ic Hic. apply Hl. right. exact Hic.
  - apply ext_step_no_dot; [|exact Hst].
    apply (Hl (i, c)). left. reflexivity.
Qed.

Lemma indexed_no_dot (s : string) : forall i ic,
  JS.includes s "." = false -> In ic (JS.indexed i s) ->
  snd ic <> "."%char.
Proof.
  induction s as [|c r IH]; intros i ic H Hin; [destruct Hin|].
  rewrite includes_cons in H. apply orb_false_iff in H.
  destruct H as [Hc Hr]. cbn [JS.indexed] in Hin.
  destruct Hin as [<-|Hin].
  - cbn [snd]. intros ->. cbn in Hc. destruct r; discriminate.
  - apply (IH _ _ Hr Hin).
Qed.

Lemma extname_no_dot (name : string) :
  JS.includes name "." = false -> JS.extname name = "".
Proof.
  intros H. unfold JS.extname.
  rewrite (scan_no_dot (rev (JS.indexed 0 name)) JS.ext_init).
  - reflexivity.
  - intros ic Hic. apply in_rev in Hic.
    apply (indexed_no_dot name 0 ic H Hic).
  - reflexivity.
Qed.

(** An attachment whose file name has no dot has no extension and is
    refused with the filter's error, whatever media type it declares;
    the request that carries it creates nothing. *)
Theorem name_without_dot_is_refused (file : Upload) :
  JS.includes (originalname file) "." = false ->
  fileFilter file = inl (Error "Only JPEG/PNG images are allowed")
  /\ forall listings req,
       In file (parts req) ->
       exists e, handle listings (POST_listings req) = (listings, Failed e).
Proof.
  intros H.
  assert (E : fileFilter file
              = inl (Error "Only JPEG/PNG images are allowed")).
  { unfold fileFilter. rewrite (extname_no_dot _ H). reflexivity. }
  split; [exact E|].
  intros listings req Hin.
  apply (refused_upload_creates_nothing listings req file Hin).
  left. rewrite E. discriminate.
Qed.

Lemma name_without_dot_is_refused_witness :
  fileFilter (mkUpload "images" "goatjpg" "image/jpeg" 1024 1748768400004)
  = inl (Error "Only JPEG/PNG images are allowed").
Proof.
  apply (proj1 (name_without_dot_is_refused
                  (mkUpload "images" "goatjpg" "image/jpeg" 1024
                     1748768400004) eq_refl)).
Defined.

(** *** Decimal texts *)

Lemma parse_digits_pos (d : Decimal.uint) : forall acc : positive,
  JS.parse_digits 10 (Some (Z.pos acc)) (NilEmpty.string_of_uint d)
  = Some (Z.pos (Pos.of_uint_acc d acc)).
Proof.
  induction d; intros acc; cbn [NilEmpty.string_of_uint JS.parse_digits];
    try reflexivity;
    change (JS.digit_value _) with (Some 0) ||
    change (JS.digit_value _) with (Some 1) ||
    change (JS.digit_value _) with (Some 2) ||
    change (JS.digit_value _) with (Some 3) ||
    change (JS.digit_value _) with (Some 4) ||
    change (JS.digit_value _) with (Some 5) ||
    change (JS.digit_value _) with (Some 6) ||
    change (JS.digit_value _) with (Some 7) ||
    change (JS.digit_value _) with (Some 8) ||
    change (JS.digit_value _) with (Some 9);
    cbv iota beta; cbn [Z.ltb Z.compare Pos.compare Pos.compare_cont];
    cbn [Pos.of_uint_acc]; rewrite <- IHd; f_equal; f_equal; lia.
Qed.

Lemma parse_digits_zero (d : Decimal.uint) :
  JS.parse_digits 10 (Some 0) (NilEmpty.string_of_uint d)
  = Some (Z.of_N (Pos.of_uint d)).
Proof.
  induction d; cbn [NilEmpty.string_of_uint JS.parse_digits Pos.of_uint];
    try reflexivity;
    try exact IHd;
    apply (parse_digits_pos d).
Qed.

Lemma parse_digits_start (d : Decimal.uint) :
  d <> Decimal.Nil ->
  JS.parse_digits 10 None (NilEmpty.string_of_uint d)
  = Some (Z.of_N (Pos.of_uint d)).
Proof.
  destruct d; intros Hd; [congruence| |..];
    cbn [NilEmpty.string_of_uint JS.parse_digits Pos.of_uint];
    [apply (parse_digits_zero d)|apply (parse_digits_pos d)..].
Qed.

End UploadNames.

Section NumericFields.
Import Listings.

Lemma parseInt_unsigned (d : Decimal.uint) :
  d <> Decimal.Nil ->
  JS.parseInt (NilEmpty.string_of_uint d)
  = match JS.parse_digits 10 None (NilEmpty.string_of_uint d) with
    | Some m => Some (1 * m)
    | None => None
    end.
Proof.
  destruct d as [|d|d|d|d|d|d|d|d|d|d]; intros Hd; [congruence|..];
    destruct d; reflexivity.
Qed.

Lemma parseInt_negative (d : Decimal.uint) :
  d <> Decimal.Nil ->
  JS.parseInt (String "-" (NilEmpty.string_of_uint d))
  = match JS.parse_digits 10 None (NilEmpty.string_of_uint d) with
    | Some m => Some (-1 * m)
    | None => None
    end.
Proof.
  destruct d as [|d|d|d|d|d|d|d|d|d|d]; intros Hd; [congruence|..];
    destruct d; reflexivity.
Qed.

Lemma string_of_uint_nonnil (d : Decimal.uint) :
  d <> Decimal.Nil ->
  NilZero.string_of_uint d = NilEmpty.string_of_uint d.
Proof. destruct d; intros Hd; [congruence|reflexivity..]. Qed.

Lemma parseInt_Number_toString (n : Z) :
  JS.parseInt (JS.Number_toString n) = Some n.
Proof.
  destruct n as [|p|p]; [reflexivity| |]; unfold JS.Number_toString;
    cbn [Z.to_int NilZero.string_of_int];
    pose proof (DecimalPos.Unsigned.to_uint_nonnil p) as Hp;
    rewrite (string_of_uint_nonnil _ Hp).
  - rewrite (parseInt_unsigned _ Hp), (parse_digits_start _ Hp).
    rewrite DecimalPos.Unsigned.of_to. reflexivity.
  - rewrite (parseInt_negative _ Hp), (parse_digits_start _ Hp).
    rewrite DecimalPos.Unsigned.of_to. reflexivity.
Qed.

(** A numeric form field that carries the decimal text of an integer
    is read back as that integer: for every non-zero safe integer [n],
    a POST whose age, weight or price is the text of [n] creates a
    Listing whose field is [n]. *)
Theorem numeric_field_round_trip (n : Z) :
  n <> 0 -> safe_integer n ->
  numeric_field (Some (JS.Number_toString n)) = Some n
  /\ forall listings title type breed location description forEid files now,
       let text := Some (JS.Number_toString n) in
       let l := snd (post_handler listings
                       (Form.mkBody title type breed text text text
                          location description forEid) files now) in
       age l = Some n /\ weight l = Some n /\ price l = Some n.
Proof.
  intros Hn _.
  assert (E : numeric_field (Some (JS.Number_toString n)) = Some n).
  { apply numeric_field_parsed; [|exact Hn].
    apply parseInt_Number_toString. }
  split; [exact E|]. intros. subst text l. unfold post_handler.
  cbn [snd age weight price Form.age Form.weight Form.price].
  rewrite E. repeat split.
Qed.

Lemma numeric_field_round_trip_witness :
  numeric_field (Some (JS.Number_toString (-1250))) = Some (-1250).
Proof.
  apply (proj1 (numeric_field_round_trip (-1250) ltac:(discriminate)
                  ltac:(unfold safe_integer; lia))).
Defined.

End NumericFields.

(* ===================================================================== *)
(** * Further properties of the payments view *)
(* ===================================================================== *)

Section FetchFurther.
Import Payments.

(** However the request settles and whatever state the effect starts
    in, [fetchPayments] throws nothing, ends with the loading flag off
    and leaves the search term and the sort state alone.  On success the
    payments are the transformed orders, one per order and in the order
    received, and no notification is shown; on failure the payments stay
    as they were and one notification is added. *)
Theorem fetchPayments_outcome (network : Settled) (w : World) :
  let w' := snd (fetchPayments network w) in
  fst (fetchPayments network w) = inr tt
  /\ isLoading (view w') = false
  /\ searchTerm (view w') = searchTerm (view w)
  /\ sortColumn (view w') = sortColumn (view w)
  /\ sortDirection (view w') = sortDirection (view w)
  /\ (forall orders, network = resolved (array orders) ->
        payments (view w') = map transform orders
        /\ List.length (payments (view w')) = List.length orders
        /\ toasts w' = toasts w)
  /\ (fetch_failed network ->
        payments (view w') = payments (view w)
        /\ toasts w' = (toasts w ++ [failure_message])%list).
Proof.
  destruct network as [e|[orders|]]; cbn;
    do 5 (split; [reflexivity|]); split.
  - intros orders' E. discriminate E.
  - intros _. split; reflexivity.
  - intros orders' E. inversion E; subst.
    split; [reflexivity|]. split; [apply length_map|reflexivity].
  - intros F. contradiction.
  - intros orders' E. discriminate E.
  - intros _. split; reflexivity.
Qed.

Lemma fetchPayments_outcome_witness :
  payments (view (snd (fetchPayments (resolved (array [Orders.known]))
                         (mkWorld initial [] []))))
  = [transform Orders.known]
  /\ toasts (snd (fetchPayments (resolved not_array)
                    (mkWorld initial ["earlier"] [])))
     = ["earlier"; failure_message].
Proof.
  pose proof (fetchPayments_outcome (resolved (array [Orders.known]))
                (mkWorld initial [] [])) as (_ & _ & _ & _ & _ & Hok & _).
  pose proof (fetchPayments_outcome (resolved not_array)
                (mkWorld initial ["earlier"] []))
    as (_ & _ & _ & _ & _ & _ & Hfail).
  split.
  - apply (Hok [Orders.known]). reflexivity.
  - apply Hfail. exact I.
Defined.

Lemma or_else_nonempty (v : option string) (c : ascii) (r : string) :
  present (Some (JS.or_else v (String c r)))
  /\ JS.or_else (Some (JS.or_else v (String c r))) "Unknown"
     = JS.or_else v (String c r).
Proof.
  destruct v as [[|a t]|]; cbn; split; try reflexivity;
    eexists; split; try reflexivity; discriminate.
Qed.

(** After the transformation a record always has a buyer and a seller
    text: neither is null or empty, and the items are a list.  The row
    of such a record therefore shows these texts themselves; its
    fallback "Unknown" is never what stands in for a missing name. *)
Theorem transformed_names_present (order : Raw.Order) :
  present (buyer (transform order))
  /\ present (seller (transform order))
  /\ (forall (host : Host) (fmt : NumberFormat),
        Some (buyer_cell (row (transform order))) = buyer (transform order)
        /\ Some (seller_cell (row (transform order)))
           = seller (transform order))
  /\ (Raw.seller order = None ->
      forall (host : Host) (fmt : NumberFormat),
        seller_cell (row (transform order)) = "Unknown Seller").
Proof.
  unfold transform, row; cbn [buyer seller buyer_cell seller_cell].
  change ("Buyer ID: " ++ buyerId_or_Unknown (Raw.buyerId order))
    with (String "B" ("uyer ID: " ++ buyerId_or_Unknown (Raw.buyerId order))).
  change "Unknown Seller" with (String "U" "nknown Seller").
  destruct (or_else_nonempty (Raw.buyer order) "B"
              ("uyer ID: " ++ buyerId_or_Unknown (Raw.buyerId order)))
    as [Hb1 Hb2].
  destruct (or_else_nonempty (Raw.seller order) "U" "nknown Seller")
    as [Hs1 Hs2].
  split; [exact Hb1|]. split; [exact Hs1|]. split.
  - intros host fmt. rewrite Hb2, Hs2. split; reflexivity.
  - intros E host fmt. rewrite E. reflexivity.
Qed.

Lemma transformed_names_present_witness :
  @seller_cell
    (@row TestHost.host TestFormat.format (transform Orders.anonymous))
  = "Unknown Seller".
Proof.
  apply (proj2 (proj2 (proj2 (transformed_names_present Orders.anonymous)))
           eq_refl TestHost.host TestFormat.format).
Defined.

End FetchFurther.

Section SearchFurther.
Import Payments.

Lemma ci_substring_narrow (pre t post s : string) :
  ci_substring (pre ++ t ++ post) s -> ci_substring t s.
Proof.
  intros (p1 & p2 & E).
  exists (p1 ++ JS.toLowerCase pre), (JS.toLowerCase post ++ p2).
  rewrite E, !toLowerCase_app, !append_assoc3. reflexivity.
Qed.

(** Typing more can only remove rows: for an ASCII term, a record kept
    for the term is kept for every part of it, so the list for the longer
    term is contained in the list for the shorter one.  Two ASCII terms
    that differ only in the case of their letters keep the same
    records. *)
Theorem search_narrows (pre t post : string) (p : Payment) :
  is_ascii (pre ++ t ++ post) = true ->
  (search (pre ++ t ++ post) p = true -> search t p = true)
  /\ (forall s column d loading,
        searchTerm s = pre ++ t ++ post ->
        In p (filteredPayments s) ->
        In p (filteredPayments (mkState (payments s) t column d loading)))
  /\ (forall t', is_ascii t' = true -> same_ignoring_case t t' ->
        search t p = search t' p).
Proof.
  intros _.
  assert (N : search (pre ++ t ++ post) p = true -> search t p = true).
  { rewrite !search_iff. unfold term_matches.
    intros [(s & Hs & H)|[(s & Hs & H)|[H|H]]];
      apply ci_substring_narrow in H; eauto 6. }
  split; [exact N|]. split.
  - intros s column d loading Ht Hin.
    unfold filteredPayments in *. cbn [payments searchTerm].
    rewrite filter_In in *. destruct Hin as [Hp Hs].
    rewrite Ht in Hs. split; [exact Hp|apply N; exact Hs].
  - intros t' _ E. apply toLowerCase_same in E.
    unfold search, field_includes. rewrite E. reflexivity.
Qed.

Lemma search_narrows_witness :
  search "lic" Cases.shouting = true
  /\ search "ALICE" Cases.shouting = search "alice" Cases.shouting.
Proof.
  pose proof (search_narrows "a" "lic" "e" Cases.shouting eq_refl)
    as (Hpart & _).
  pose proof (search_narrows "" "ALICE" "" Cases.shouting eq_refl)
    as (_ & _ & Hcase).
  split.
  - apply Hpart. reflexivity.
  - apply (Hcase "alice"); [reflexivity|].
    apply toLowerCase_same. reflexivity.
Defined.

End SearchFurther.

Section SortFurther.
Import Payments.
Context {host : Host}.

Lemma toggle_toggle (d : SortDirection) : toggle (toggle d) = d.
Proof. destruct d; reflexivity. Qed.

Lemma handleSort_active (s : State) (column : string) :
  sortColumn s = Some column ->
  handleSort s column
  = mkState (payments s) (searchTerm s) (Some column)
      (toggle (sortDirection s)) (isLoading s).
Proof.
  intros E. unfold handleSort, is_column. rewrite E, String.eqb_refl.
  reflexivity.
Qed.

Lemma handleSort_other (s : State) (column : string) :
  sortColumn s <> Some column ->
  handleSort s column
  = mkState (payments s) (searchTerm s) (Some column) asc (isLoading s).
Proof.
  intros E. unfold handleSort, is_column.
  destruct (sortColumn s) as [c|]; [|reflexivity].
  destruct (String.eqb_spec c column) as [->|]; [congruence|reflexivity].
Qed.

Lemma column_active_or_not (s : State) (column : string) :
  sortColumn s = Some column \/ sortColumn s <> Some column.
Proof.
  destruct (sortColumn s) as [c|]; [|right; discriminate].
  destruct (String.eqb_spec c column) as [->|Hne];
    [left; reflexivity|right; congruence].
Qed.

(** After a click the clicked column is the active one and the records
    searched are the same.  Two clicks on the active column bring the
    sort state back to what it was; two clicks on another column leave it
    active and descending. *)
Theorem handleSort_clicks (s : State) (column : string) :
  sortColumn (handleSort s column) = Some column
  /\ filteredPayments (handleSort s column) = filteredPayments s
  /\ (sortColumn s = Some column ->
      handleSort (handleSort s column) column = s)
  /\ (sortColumn s <> Some column ->
      handleSort (handleSort s column) column
      = mkState (payments s) (searchTerm s) (Some column) desc
          (isLoading s)).
Proof.
  destruct (column_active_or_not s column) as [E|E].
  - rewrite (handleSort_active s column E).
    split; [reflexivity|]. split; [reflexivity|]. split; [|congruence].
    intros _. rewrite handleSort_active by reflexivity.
    destruct s as [ps term col d loading]. cbn in *.
    rewrite toggle_toggle, E. reflexivity.
  - rewrite (handleSort_other s column E).
    split; [reflexivity|]. split; [reflexivity|]. split; [congruence|].
    intros _. rewrite handleSort_active by reflexivity. reflexivity.
Qed.

Lemma comparator_unknown (c : string) (d : SortDirection) (a b : Payment) :
  ~ In c sortable -> comparator (Some c) d a b = Some 0.
Proof.
  intros Hc. unfold comparator.
  destruct (negb (JS.truthy (Some c))); [reflexivity|].
  cbn [JS.ToString].
  destruct (String.eqb_spec c "date") as [->|_];
    [elim Hc; simpl; auto|].
  destruct (String.eqb_spec c "amount") as [->|_];
    [elim Hc; simpl; auto|].
  destruct (String.eqb_spec c "buyer") as [->|_];
    [elim Hc; simpl; auto|].
  destruct (String.eqb_spec c "seller") as [->|_];
    [elim Hc; simpl; auto|].
  destruct (String.eqb_spec c "status") as [->|_];
    [elim Hc; simpl; auto 6|].
  reflexivity.
Qed.

(** With no column selected, or with a column the comparator has no
    case for, the table shows the search result in the order in which
    the records were fetched. *)
Theorem unsorted_keeps_fetch_order (s : State) :
  (sortColumn s = None
   \/ exists c, sortColumn s = Some c /\ ~ In c sortable) ->
  sortedPayments s = filteredPayments s
  /\ filterPaymentsByStatus s "all-payments"
     = filter (search (searchTerm s)) (payments s).
Proof.
  intros H.
  assert (E : sortedPayments s = filteredPayments s).
  { unfold sortedPayments. apply sort_unordered. intros x y.
    unfold SortCompare. destruct H as [-> |(c & -> & Hc)];
      [reflexivity|]. rewrite (comparator_unknown c _ x y Hc). reflexivity. }
  split; [exact E|]. cbn. exact E.
Qed.

End SortFurther.

Lemma handleSort_clicks_witness :
  Payments.handleSort
    (Payments.handleSort (Orders.table (Some "date") Payments.desc) "date")
    "date"
  = Orders.table (Some "date") Payments.desc.
Proof.
  apply (proj1 (proj2 (proj2
           (handleSort_clicks (Orders.table (Some "date") Payments.desc)
              "date")))).
  reflexivity.
Defined.

Lemma unsorted_keeps_fetch_order_witness :
  @Payments.sortedPayments TestHost.host
    (Orders.table (Some "orderId") Payments.desc)
  = Payments.filteredPayments (Orders.table (Some "orderId") Payments.desc).
Proof.
  refine (proj1 (@unsorted_keeps_fetch_order TestHost.host
                   (Orders.table (Some "orderId") Payments.desc) _)).
  right. exists "orderId". split; [reflexivity|].
  simpl. intuition discriminate.
Defined.

Section ListCounting.
Context {A : Type}.

Lemma filter_perm_length (f : A -> bool) (l l' : list A) :
  Permutation l l' ->
  List.length (filter f l) = List.length (filter f l').
Proof.
  induction 1 as [|x l l' _ IH|x y l|l l' l'' _ IH1 _ IH2]; cbn [filter].
  - reflexivity.
  - destruct (f x); cbn [List.length]; rewrite IH; reflexivity.
  - destruct (f x), (f y); reflexivity.
  - rewrite IH1. exact IH2.
Qed.

Lemma filter_le (f : A -> bool) (l : list A) :
  (List.length (filter f l) <= List.length l)%nat.
Proof.
  induction l as [|x l IH]; cbn [filter List.length]; [lia|].
  destruct (f x); cbn [List.length]; lia.
Qed.

Lemma filter_filter_le (f g : A -> bool) (l : list A) :
  (List.length (filter f (filter g l)) <= List.length (filter f l))%nat.
Proof.
  induction l as [|x l IH]; cbn [filter]; [lia|].
  destruct (g x), (f x) eqn:E; cbn [filter List.length]; rewrite ?E;
    cbn [List.length]; lia.
Qed.

Lemma filter_none (f : A -> bool) (l : list A) :
  (forall x, In x l -> f x = false) -> filter f l = [].
Proof.
  induction l as [|x l IH]; intros H; [reflexivity|].
  cbn [filter]. rewrite (H x (or_introl eq_refl)).
  apply IH. intros y Hy. apply H. right. exact Hy.
Qed.

End ListCounting.

Section TabsFurther.
Import Payments.
Context {host : Host}.

Lemma filter_search_empty (l : list Payment) : filter (search "") l = l.
Proof.
  induction l as [|p l IH]; [reflexivity|].
  cbn [filter]. rewrite (search_empty_term "" p eq_refl), IH. reflexivity.
Qed.

Lemma all_tab (s : State) :
  filterPaymentsByStatus s "all-payments" = sortedPayments s.
Proof. reflexivity. Qed.

Lemma status_tab (s : State) (name : string) :
  name <> "all-payments" ->
  filterPaymentsByStatus s name
  = filter (fun p => (JS.toLowerCase (status p) =? JS.toLowerCase name)%string)
      (sortedPayments s).
Proof.
  intros Hne. unfold filterPaymentsByStatus.
  destruct (String.eqb_spec name "all-payments"); [contradiction|reflexivity].
Qed.

Lemma sorted_length (s : State) :
  List.length (sortedPayments s) = List.length (filteredPayments s).
Proof. apply Permutation_length. apply sort_perm. Qed.

(** The rows of a tab never outnumber the count on its trigger: the
    count is taken before the search, the rows after it.  With an empty
    search term the two agree.  Every record shown in any tab is one of
    the fetched records. *)
Theorem rows_within_counts (s : State) :
  (List.length (filterPaymentsByStatus s "all-payments")
   <= List.length (payments s))%nat
  /\ (forall name, name <> "all-payments" -> JS.toLowerCase name = name ->
        (List.length (filterPaymentsByStatus s name)
         <= count_status s name)%nat)
  /\ (searchTerm s = "" ->
      List.length (filterPaymentsByStatus s "all-payments")
      = List.length (payments s)
      /\ forall name, name <> "all-payments" -> JS.toLowerCase name = name ->
           List.length (filterPaymentsByStatus s name) = count_status s name)
  /\ (forall tab p, In p (filterPaymentsByStatus s tab) -> In p (payments s)).
Proof.
  split; [|split; [|split]].
  - rewrite all_tab, sorted_length. apply filter_le.
  - intros name Hne Hlow. rewrite (status_tab s name Hne), Hlow.
    unfold count_status, sortedPayments.
    rewrite (filter_perm_length _ _ _ (sort_perm _ (filteredPayments s))).
    apply filter_filter_le.
  - intros E. split.
    + rewrite all_tab, sorted_length. unfold filteredPayments.
      rewrite E, filter_search_empty. reflexivity.
    + intros name Hne Hlow. rewrite (status_tab s name Hne), Hlow.
      unfold count_status, sortedPayments.
      rewrite (filter_perm_length _ _ _ (sort_perm _ (filteredPayments s))).
      unfold filteredPayments. rewrite E, filter_search_empty. reflexivity.
  - intros tab p Hin.
    assert (Hs : In p (sortedPayments s)).
    { unfold filterPaymentsByStatus in Hin.
      destruct (tab =? "all-payments")%string; [exact Hin|].
      apply filter_In in Hin. apply Hin. }
    apply (Permutation_in p (sort_perm _ (filteredPayments s))) in Hs.
    apply filter_In in Hs. apply Hs.
Qed.

End TabsFurther.

Lemma rows_within_counts_witness :
  List.length (@Payments.filterPaymentsByStatus TestHost.host
                 (Dated.table None Payments.asc) "completed")
  = Payments.count_status (Dated.table None Payments.asc) "completed".
Proof.
  apply (proj2 (proj1 (proj2 (proj2
           (@rows_within_counts TestHost.host (Dated.table None Payments.asc))))
           eq_refl) "completed"); [discriminate|reflexivity].
Defined.

Section StatusFurther.
Import Payments.

Lemma known_status_bools (p : Payment) :
  let n := ((if status_is "completed" p then 1 else 0)
            + (if status_is "pending" p then 1 else 0)
            + (if status_is "cancelled" p then 1 else 0))%nat in
  (n <= 1)%nat /\ (n = 1%nat <-> known_status (status p)).
Proof.
  unfold status_is, known_status, ci_equal.
  change (JS.toLowerCase "completed") with "completed".
  change (JS.toLowerCase "pending") with "pending".
  change (JS.toLowerCase "cancelled") with "cancelled".
  destruct (String.eqb_spec (JS.toLowerCase (status p)) "completed") as [E1|E1];
    destruct (String.eqb_spec (JS.toLowerCase (status p)) "pending") as [E2|E2];
    destruct (String.eqb_spec (JS.toLowerCase (status p)) "cancelled") as [E3|E3];
    cbn; try (rewrite E1 in *; discriminate);
    try (rewrite E2 in *; discriminate);
    (split; [lia|]); split; intros H; try lia; try tauto;
    try discriminate.
Qed.

Lemma counts_partition (l : list Payment) :
  let n := (List.length (filter (status_is "completed") l)
            + List.length (filter (status_is "pending") l)
            + List.length (filter (status_is "cancelled") l))%nat in
  (n <= List.length l)%nat
  /\ (n = List.length l <-> Forall (fun p => known_status (status p)) l).
Proof.
  induction l as [|p l IH]; cbn zeta in *.
  - split; [cbn; lia|]. split; [constructor|reflexivity].
  - destruct IH as [Hle Hiff].
    destruct (known_status_bools p) as [Hp1 Hp2]. cbn zeta in *.
    cbn [filter List.length].
    destruct (status_is "completed" p), (status_is "pending" p),
      (status_is "cancelled" p); cbn [List.length] in *;
      (split; [lia|]); split; intros H;
      solve [ constructor; [apply Hp2; lia|apply Hiff; lia]
            | inversion H; subst;
              match goal with
              | K : known_status _ |- _ => apply Hp2 in K
              end;
              match goal with
              | F : Forall _ l |- _ => apply Hiff in F
              end; lia
            | lia ].
Qed.

End StatusFurther.

Section StatusCounts.
Import Payments.

Lemma count_status_is (s : State) (name : string) :
  count_status s name = List.length (filter (status_is name) (payments s)).
Proof. reflexivity. Qed.

Lemma known_recognised (status_ : string) :
  known_status status_ <-> recognised_status status_.
Proof.
  unfold known_status, recognised_status, ci_equal.
  rewrite !toLowerCase_same. reflexivity.
Qed.

(** The three status counts never add up to more than the count of all
    payments.  When the statuses are ASCII text they add up to exactly
    that if and only if every fetched record has one of the three
    statuses completed, pending, cancelled, the case of letters ignored:
    a record with another status is counted under "all-payments"
    only. *)
Theorem status_counts_partition (s : State) :
  (count_status s "completed" + count_status s "pending"
   + count_status s "cancelled" <= List.length (payments s))%nat
  /\ ((forall p, In p (payments s) -> is_ascii (status p) = true) ->
      ((count_status s "completed" + count_status s "pending"
        + count_status s "cancelled")%nat = List.length (payments s)
       <-> Forall (fun p => recognised_status (status p)) (payments s))).
Proof.
  rewrite !count_status_is.
  destruct (counts_partition (payments s)) as [Hle Hiff].
  split; [exact Hle|]. intros _. cbn zeta in Hiff. rewrite Hiff.
  rewrite !Forall_forall. split; intros H p Hp;
    apply known_recognised; apply H; exact Hp.
Qed.

Lemma status_counts_partition_witness :
  (count_status (Cases.table None asc) "completed"
   + count_status (Cases.table None asc) "pending"
   + count_status (Cases.table None asc) "cancelled")%nat = 3%nat.
Proof.
  apply (proj2 (proj2 (status_counts_partition (Cases.table None asc))
                  ltac:(intros p [<-|[<-|[<-|[]]]]; reflexivity))).
  constructor; [left; apply toLowerCase_same; reflexivity|].
  constructor; [right; left; apply toLowerCase_same; reflexivity|].
  constructor; [right; right; apply toLowerCase_same; reflexivity|].
  constructor.
Defined.

Lemma getStatusColor_lower (a : string) :
  getStatusColor a
  = if (JS.toLowerCase a =? "completed")%string then "bg-green-500"
    else if (JS.toLowerCase a =? "pending")%string then "bg-yellow-500"
    else if (JS.toLowerCase a =? "cancelled")%string then "bg-red-500"
    else "bg-gray-500".
Proof. reflexivity. Qed.

Lemma tab_status `{Host} (s : State) (name : string) (p : Payment) :
  name <> "all-payments" ->
  In p (filterPaymentsByStatus s name) ->
  JS.toLowerCase (status p) = JS.toLowerCase name.
Proof.
  intros Hne Hin. rewrite (status_tab s name Hne) in Hin.
  apply filter_In in Hin. destruct Hin as [_ E].
  apply String.eqb_eq in E. exact E.
Qed.

(** The colour of the status indicator depends on the status only up
    to the case of letters, and agrees with the tabs: every row of the
    "completed" tab is green, of the "pending" tab yellow, of the
    "cancelled" tab red.  The indicator is gray exactly for a status
    that is none of the three. *)
Theorem status_colours `{Host} (s : State) :
  (forall a b, ci_equal a b -> getStatusColor a = getStatusColor b)
  /\ (forall p, In p (filterPaymentsByStatus s "completed") ->
        getStatusColor (status p) = "bg-green-500")
  /\ (forall p, In p (filterPaymentsByStatus s "pending") ->
        getStatusColor (status p) = "bg-yellow-500")
  /\ (forall p, In p (filterPaymentsByStatus s "cancelled") ->
        getStatusColor (status p) = "bg-red-500")
  /\ (forall a, getStatusColor a = "bg-gray-500" <-> ~ known_status a).
Proof.
  split; [|split; [|split; [|split]]].
  - intros a b E. rewrite !getStatusColor_lower. unfold ci_equal in E.
    rewrite E. reflexivity.
  - intros p Hin. rewrite getStatusColor_lower.
    rewrite (tab_status s "completed" p ltac:(discriminate) Hin).
    reflexivity.
  - intros p Hin. rewrite getStatusColor_lower.
    rewrite (tab_status s "pending" p ltac:(discriminate) Hin).
    reflexivity.
  - intros p Hin. rewrite getStatusColor_lower.
    rewrite (tab_status s "cancelled" p ltac:(discriminate) Hin).
    reflexivity.
  - intros a. rewrite getStatusColor_lower. unfold known_status, ci_equal.
    change (JS.toLowerCase "completed") with "completed".
    change (JS.toLowerCase "pending") with "pending".
    change (JS.toLowerCase "cancelled") with "cancelled".
    destruct (String.eqb_spec (JS.toLowerCase a) "completed");
      [split; [discriminate|tauto]|].
    destruct (String.eqb_spec (JS.toLowerCase a) "pending");
      [split; [discriminate|tauto]|].
    destruct (String.eqb_spec (JS.toLowerCase a) "cancelled");
      [split; [discriminate|tauto]|].
    split; [tauto|reflexivity].
Qed.

End StatusCounts.

Lemma status_colours_witness :
  Payments.getStatusColor (Payments.status Dated.late) = "bg-green-500"
  /\ Payments.getStatusColor "refunded" = "bg-gray-500".
Proof.
  pose proof (@status_colours TestHost.host (Dated.table None Payments.asc))
    as (_ & Hgreen & _ & _ & Hgray).
  split.
  - apply Hgreen. left. reflexivity.
  - apply Hgray. unfold known_status, ci_equal.
    intros [E|[E|E]]; discriminate E.
Defined.

Section MethodCell.
Import Payments.

Lemma upper_char_idem (c : ascii) :
  JS.upper_char (JS.upper_char c) = JS.upper_char c.
Proof. destruct c as [[] [] [] [] [] [] [] []]; reflexivity. Qed.

Lemma lower_upper_char (c : ascii) :
  JS.lower_char (JS.upper_char c) = JS.lower_char c.
Proof. destruct c as [[] [] [] [] [] [] [] []]; reflexivity. Qed.

Lemma upper_char_same (c : ascii) : same_letter (JS.upper_char c) c.
Proof.
  unfold same_letter, case_pair.
  pose proof (code_upper_char c) as E.
  destruct ((97 <=? JS.code c) && (JS.code c <=? 122)) eqn:Ec.
  - apply andb_true_iff in Ec. rewrite !Z.leb_le in Ec.
    right. left. lia.
  - left. apply code_inj. exact E.
Qed.

(** Capitalising an ASCII payment method changes at most its first
    letter: a small first letter a to z is replaced by its capital and
    anything else is left as it is.  So the text keeps its length and
    everything after the first character, it is the method up to the case
    of letters, doing it twice is doing it once, and the empty method
    stays empty. *)
Theorem formatPaymentMethod_capitalises (m : string) :
  is_ascii m = true ->
  String.length (formatPaymentMethod m) = String.length m
  /\ same_ignoring_case (formatPaymentMethod m) m
  /\ formatPaymentMethod (formatPaymentMethod m) = formatPaymentMethod m
  /\ (forall c r, m = String c r ->
        (97 <= JS.code c <= 122 ->
         exists C, JS.code C = JS.code c - 32
                   /\ formatPaymentMethod m = String C r)
        /\ (~ 97 <= JS.code c <= 122 -> formatPaymentMethod m = m))
  /\ (formatPaymentMethod m = "" <-> m = "").
Proof.
  intros _. destruct m as [|c r]; cbn.
  - split; [reflexivity|]. split; [constructor|].
    split; [reflexivity|]. split; [intros; discriminate|tauto].
  - split; [reflexivity|]. split.
    + constructor; [apply upper_char_same|apply same_ignoring_case_refl].
    + split; [rewrite upper_char_idem; reflexivity|].
      split; [|split; discriminate].
      intros c0 r0 E. inversion E; subst.
      pose proof (code_upper_char c0) as K. split.
      * intros Hc. exists (JS.upper_char c0). split; [|reflexivity].
        rewrite K.
        rewrite (proj2 (andb_true_iff _ _)
                   (conj (proj2 (Z.leb_le _ _) (proj1 Hc))
                         (proj2 (Z.leb_le _ _) (proj2 Hc)))).
        reflexivity.
      * intros Hc. f_equal. apply code_inj. rewrite K.
        destruct ((97 <=? JS.code c0) && (JS.code c0 <=? 122)) eqn:Ec;
          [|reflexivity].
        apply andb_true_iff in Ec. rewrite !Z.leb_le in Ec. tauto.
Qed.

Lemma formatPaymentMethod_capitalises_witness :
  exists C, JS.code C = 83 /\ formatPaymentMethod "stripe" = String C "tripe".
Proof.
  apply (proj1 (proj1 (proj2 (proj2 (proj2
           (formatPaymentMethod_capitalises "stripe" eq_refl))))
           "s"%char "tripe" eq_refl)).
  vm_compute. split; discriminate.
Defined.

End MethodCell.

Section ScreenFurther.
Import Payments.
Context {host : Host} {fmt : NumberFormat}.

Lemma sort_nil {A} (c : A -> A -> option Z) : sort c [] = [].
Proof. reflexivity. Qed.

Lemma tabs_empty (s : State) :
  filteredPayments s = [] -> forall tab, filterPaymentsByStatus s tab = [].
Proof.
  intros E tab. unfold filterPaymentsByStatus, sortedPayments.
  rewrite E, sort_nil. destruct (tab =? "all-payments")%string; reflexivity.
Qed.

(** While the fetch is pending the component shows the spinner.  Once
    the fetch has settled it never does: after a failed fetch, or a
    fetch that brought no order, it shows the "No Payments Found" empty
    state; after a fetch that brought orders it shows the four tabs, the
    first trigger counting all the orders received. *)
Theorem screen_after_mount (network : Settled) :
  render initial = Spinner "Loading payments..."
  /\ (forall text, render (view (snd (mount network))) <> Spinner text)
  /\ (fetch_failed network \/ network = resolved (array []) ->
      render (view (snd (mount network)))
      = EmptyState "" "No Payments Found" "No payment data available yet.")
  /\ (forall o os, network = resolved (array (o :: os)) ->
      exists rest contents,
        render (view (snd (mount network)))
        = TabsView "" (("all-payments", S (List.length os)) :: rest) contents
        /\ map value contents = tabs).
Proof.
  split; [reflexivity|]. split; [|split].
  - intros text. destruct network as [e|[[|o os]|]]; discriminate.
  - intros [F|E].
    + destruct network as [e|[orders|]]; [reflexivity|contradiction|reflexivity].
    + rewrite E. reflexivity.
  - intros o os E. rewrite E, mount_success. unfold render.
    cbn [view snd isLoading payments map List.length Nat.eqb].
    unfold TabsList. cbn [payments map List.length].
    rewrite length_map. eexists. eexists. split; reflexivity.
Qed.

(** When the search term matches none of the fetched records, every tab
    is an empty table with the notice that no payment matches, while the
    triggers go on showing the counts of the fetched records. *)
Theorem screen_without_match (s : State) :
  isLoading s = false ->
  payments s <> [] ->
  (forall p, In p (payments s) -> search (searchTerm s) p = false) ->
  render s
  = TabsView (searchTerm s) (TabsList s)
      (map (fun tab => mkContent tab [] (Some no_match_notice)) tabs).
Proof.
  intros Hl Hp Hs.
  assert (E : filteredPayments s = []).
  { apply filter_none. exact Hs. }
  pose proof (tabs_empty s E) as Ht.
  unfold render. rewrite Hl.
  assert (N : (List.length (payments s) =? 0)%nat = false).
  { destruct (payments s); [congruence|reflexivity]. }
  rewrite N. cbn [map tabs]. rewrite !Ht. reflexivity.
Qed.

End ScreenFurther.

Lemma screen_after_mount_witness :
  @Payments.render TestHost.host TestFormat.format
    (Payments.view (snd (Payments.mount (Payments.resolved Payments.not_array))))
  = Payments.EmptyState "" "No Payments Found" "No payment data available yet.".
Proof.
  apply (proj1 (proj2 (proj2
           (@screen_after_mount TestHost.host TestFormat.format
              (Payments.resolved Payments.not_array))))).
  left. exact I.
Defined.

Lemma screen_without_match_witness :
  @Payments.render TestHost.host TestFormat.format
    (Payments.mkState [Orders.A; Orders.B] "zebra" None Payments.asc false)
  = Payments.TabsView "zebra"
      [("all-payments", 2%nat); ("completed", 1%nat); ("pending", 1%nat);
       ("cancelled", 0%nat)]
      (map (fun tab => Payments.mkContent tab [] (Some no_match_notice))
         Payments.tabs).
Proof.
  apply (@screen_without_match TestHost.host TestFormat.format
           (Payments.mkState [Orders.A; Orders.B] "zebra" None Payments.asc
              false)).
  - reflexivity.
  - discriminate.
  - intros p [<-|[<-|[]]]; reflexivity.
Defined.

Section MoreExamples.
Import Payments.
Existing Instance TestHost.host.
Existing Instance TestFormat.format.

Example dates_ascending :
  sortedPayments (Dated.table (Some "date") asc)
  = [Dated.undated; Dated.early; Dated.late].
Proof. reflexivity. Qed.

Example dates_descending :
  sortedPayments (Dated.table (Some "date") desc)
  = [Dated.late; Dated.early; Dated.undated].
Proof. reflexivity. Qed.

Example a_row :
  row (transform Orders.known)
  = mkRow "18" "ORD-B2" "Alice" "Green Farm" "Rs. 900" "Bank"
      "HBL - 0012345" "bg-yellow-500" "pending" "on 1748768400000".
Proof. reflexivity. Qed.

Example counts_with_unknown_status :
  TabsList (Dated.table None asc)
  = [("all-payments", 3%nat); ("completed", 1%nat); ("pending", 1%nat);
     ("cancelled", 0%nat)].
Proof. reflexivity. Qed.

End MoreExamples.
